(** * mcp-web-scrape: the Python example client (examples/python-client.py)

    A shallow embedding of the two client classes of the script,
    [MCPWebScrapeClient] (on [requests]) and [AsyncMCPWebScrapeClient]
    (on [aiohttp]), of the call to [asyncio.gather] in [async_example],
    and the properties of the request envelopes, of the unwrapping of
    responses and of the classification of errors.

    Client methods are programs of a small free monad [prog] whose two
    events are the reading of the clock ([time.time()]) and one HTTP
    round trip ([session.post] / [session.get]); Python exceptions are
    the constructor [Raise]. *)

From Stdlib Require Import ZArith QArith String Ascii.
From stdpp Require Import gmap strings list fin_maps.

Set Warnings "-register-all".
#[local] Open Scope string_scope.
#[local] Open Scope Z_scope.
#[local] Open Scope list_scope.

(** ** Python values

    The values the script handles are those of the [json] module:
    [None], booleans, integers, floats, strings, lists and dicts with
    string keys.  A finite float is given by its rational value.  Dicts
    are finite maps: two dicts are equal ([==]) when they have the same
    keys with the same values, whatever the order of insertion. *)

Inductive json : Type :=
  | JNull
  | JBool (b : bool)
  | JInt (n : Z)
  | JFloat (q : Q)
  | JStr (s : string)
  | JList (l : list json)
  | JDict (d : gmap string json).

(** Truth value of an object, as tested by [if pattern:]. *)
Definition py_truthy (v : json) : bool :=
  match v with
  | JNull => false
  | JBool b => b
  | JInt n => negb (n =? 0)%Z
  | JFloat q => negb (Qnum q =? 0)%Z
  | JStr s => negb (String.eqb s "")
  | JList l => match l with [] => false | _ => true end
  | JDict d => negb (bool_decide (d = ∅))
  end.

(** [int(x)] on a float truncates towards zero. *)
Definition py_int (x : Q) : Z := Z.quot (Qnum x) (Z.pos (Qden x)).

(** [s.rstrip('/')]: drop every trailing slash. *)
Fixpoint rstrip_slash (s : string) : string :=
  match s with
  | EmptyString => EmptyString
  | String c rest =>
      match rstrip_slash rest with
      | EmptyString => if Ascii.eqb c "/" then EmptyString else String c EmptyString
      | r => String c r
      end
  end.

(** [sub in s] on strings: [sub] occurs in [s]. *)
Fixpoint str_contains (sub s : string) : bool :=
  String.prefix sub s ||
  match s with
  | EmptyString => false
  | String _ rest => str_contains sub rest
  end.

(** ** Exceptions

    The text of an f-string is kept as its parts, a literal or an
    interpolated value; [render] gives the text for a given [str()]. *)

Inductive fpart : Type :=
  | FLit (s : string)
  | FVal (v : json).

Definition render (py_str : json → string) (parts : list fpart) : string :=
  foldr (λ p acc, match p with FLit s => String.append s acc
                           | FVal v => String.append (py_str v) acc end)
        "" parts.

Inductive exn : Type :=
  | TypeError
  | AttributeError
  | KeyError
  | Exception_ (msg : list fpart)
  | Requests_HTTPError (status : Z) (url : string)
  | Requests_ConnectionError
  | Requests_JSONDecodeError
  | Aiohttp_ClientResponseError (status : Z) (url : string)
  | Aiohttp_ClientConnectionError
  | Aiohttp_ContentTypeError
  | Json_JSONDecodeError.

(** ** HTTP messages *)

Inductive verb : Type := GET | POST.

Record http_request : Type := {
  rq_verb : verb;
  rq_url : string;
  rq_headers : list (string * string);
  rq_json : option json
}.

(** The body of a response, as [json()] sees it: nothing but white
    space, a text that is not JSON, or the text of a JSON value. *)
Inductive http_body : Type :=
  | BodyBlank
  | BodyMalformed
  | BodyJson (j : json).

Record http_response : Type := {
  status : Z;
  ctype_json : bool;  (* the Content-Type header announces JSON *)
  body : http_body
}.

Inductive reply : Type :=
  | Response (r : http_response)
  | ConnectionFailed.

(** ** Programs *)

Inductive prog (A : Type) : Type :=
  | Ret (a : A)
  | Raise (e : exn)
  | Time (k : Q → prog A)
  | Send (rq : http_request) (k : reply → prog A).

Arguments Ret {A} a.
Arguments Raise {A} e.
Arguments Time {A} k.
Arguments Send {A} rq k.

Fixpoint prog_bind {A B : Type} (f : A → prog B) (p : prog A) : prog B :=
  match p with
  | Ret a => f a
  | Raise e => Raise e
  | Time k => Time (λ t, prog_bind f (k t))
  | Send rq k => Send rq (λ r, prog_bind f (k r))
  end.

#[global] Instance prog_mret : MRet prog := @Ret.
#[global] Instance prog_mbind : MBind prog := @prog_bind.

(** [time.time()] *)
Definition time_time : prog Q := Time Ret.

(** ** Operations on Python objects that may raise *)

(** [key in v] for a string [key]: membership in the keys of a dict, in
    the items of a list, occurrence in a string; other values are not
    iterable. *)
Definition py_in (key : string) (v : json) : prog bool :=
  match v with
  | JDict d => Ret (bool_decide (is_Some (d !! key)))
  | JList l =>
      Ret (existsb (λ x, match x with JStr s => String.eqb s key | _ => false end) l)
  | JStr s => Ret (str_contains key s)
  | _ => Raise TypeError
  end.

(** [v[key]] for a string [key]. *)
Definition py_getitem (v : json) (key : string) : prog json :=
  match v with
  | JDict d => match d !! key with Some x => Ret x | None => Raise KeyError end
  | _ => Raise TypeError
  end.

(** [v.get(key, default)]: only dicts have the method. *)
Definition py_get (v : json) (key : string) (dflt : json) : prog json :=
  match v with
  | JDict d => Ret (match d !! key with Some x => x | None => dflt end)
  | _ => Raise AttributeError
  end.

(** [{**base, **extra}]: in a dict display a later entry replaces an
    earlier one with the same key. *)
Definition dict_unpack (base extra : gmap string json) : gmap string json :=
  extra ∪ base.

(** ** The two HTTP libraries

    What the script uses of [requests] and of [aiohttp]: one round trip,
    [raise_for_status()] and [json()] of the response. *)

Module requests.

Definition roundtrip (rq : http_request) : prog http_response :=
  Send rq (λ rep, match rep with
                  | Response r => Ret r
                  | ConnectionFailed => Raise Requests_ConnectionError
                  end).

Definition get (headers : list (string * string)) (url : string) : prog http_response :=
  roundtrip {| rq_verb := GET; rq_url := url; rq_headers := headers; rq_json := None |}.

Definition post (headers : list (string * string)) (url : string) (payload : json)
  : prog http_response :=
  roundtrip {| rq_verb := POST; rq_url := url; rq_headers := headers;
               rq_json := Some payload |}.

(** [Response.raise_for_status]: an [HTTPError] for a 4xx client error
    or a 5xx server error, nothing for any other status. *)
Definition raise_for_status (url : string) (r : http_response) : prog unit :=
  if (400 <=? status r) && (status r <? 600)
  then Raise (Requests_HTTPError (status r) url)
  else Ret tt.

(** [Response.json]: decodes the text, whatever the Content-Type. *)
Definition json (r : http_response) : prog json :=
  match body r with
  | BodyJson j => Ret j
  | BodyBlank | BodyMalformed => Raise Requests_JSONDecodeError
  end.

End requests.

Module aiohttp.

Definition roundtrip (rq : http_request) : prog http_response :=
  Send rq (λ rep, match rep with
                  | Response r => Ret r
                  | ConnectionFailed => Raise Aiohttp_ClientConnectionError
                  end).

Definition get (headers : list (string * string)) (url : string) : prog http_response :=
  roundtrip {| rq_verb := GET; rq_url := url; rq_headers := headers; rq_json := None |}.

Definition post (headers : list (string * string)) (url : string) (payload : json)
  : prog http_response :=
  roundtrip {| rq_verb := POST; rq_url := url; rq_headers := headers;
               rq_json := Some payload |}.

(** [ClientResponse.raise_for_status]: a [ClientResponseError] unless
    [ok], which is [400 > status]. *)
Definition raise_for_status (url : string) (r : http_response) : prog unit :=
  if 400 <=? status r
  then Raise (Aiohttp_ClientResponseError (status r) url)
  else Ret tt.

(** [ClientResponse.json], with its default [content_type]: a
    [ContentTypeError] unless the Content-Type is JSON, then [None] for
    a blank body, and the decoded text otherwise. *)
Definition json (r : http_response) : prog json :=
  if ctype_json r then
    match body r with
    | BodyBlank => Ret JNull
    | BodyMalformed => Raise Json_JSONDecodeError
    | BodyJson j => Ret j
    end
  else Raise Aiohttp_ContentTypeError.

End aiohttp.

(** ** The JSON-RPC envelopes built by both clients *)

Definition list_payload (method : string) : json :=
  JDict (<["jsonrpc" := JStr "2.0"]>
         (<["id" := JInt 1]>
         (<["method" := JStr method]> ∅))).

Definition call_payload (now : Q) (tool_name : string) (arguments : gmap string json)
  : json :=
  JDict (<["jsonrpc" := JStr "2.0"]>
         (<["id" := JInt (py_int now)]>
         (<["method" := JStr "tools/call"]>
         (<["params" := JDict (<["name" := JStr tool_name]>
                              (<["arguments" := JDict arguments]> ∅))]> ∅)))).

(** ** class MCPWebScrapeClient *)

Module MCPWebScrapeClient.

Record t : Type := {
  base_url : string;
  session : list (string * string)  (* the headers of the session *)
}.

Definition __init__ (base_url : string) : t :=
  {| base_url := rstrip_slash base_url;
     session := [("Content-Type", "application/json");
                 ("User-Agent", "mcp-web-scrape-python-client/1.0")] |}.

(** [MCPWebScrapeClient()] *)
Definition default : t := __init__ "http://localhost:3000".

Definition health_check (self : t) : prog json :=
  let url := String.append (base_url self) "/health" in
  response ← requests.get (session self) url;
  requests.raise_for_status url response;;
  requests.json response.

Definition list_tools (self : t) : prog json :=
  let payload := list_payload "tools/list" in
  let url := String.append (base_url self) "/message" in
  response ← requests.post (session self) url payload;
  requests.raise_for_status url response;;
  result ← requests.json response;
  inner ← py_get result "result" (JDict ∅);
  py_get inner "tools" (JList []).

Definition _call_tool (self : t) (tool_name : string) (arguments : gmap string json)
  : prog json :=
  now ← time_time;
  let payload := call_payload now tool_name arguments in
  let url := String.append (base_url self) "/message" in
  response ← requests.post (session self) url payload;
  requests.raise_for_status url response;;
  result ← requests.json response;
  has_error ← py_in "error" result;
  if has_error : bool then
    e ← py_getitem result "error";
    Raise (Exception_ [FLit "Tool call failed: "; FVal e])
  else py_get result "result" (JDict ∅).

Definition fetch_content (self : t) (url : json) (kwargs : gmap string json)
  : prog json :=
  _call_tool self "fetch" (dict_unpack (<["url" := url]> ∅) kwargs).

Definition extract_content (self : t) (url format : json) (kwargs : gmap string json)
  : prog json :=
  _call_tool self "extract"
    (dict_unpack (<["format" := format]> (<["url" := url]> ∅)) kwargs).

Definition summarize_content (self : t) (url : json) (kwargs : gmap string json)
  : prog json :=
  _call_tool self "summarize" (dict_unpack (<["url" := url]> ∅) kwargs).

Definition list_cache (self : t) : prog json :=
  let payload := list_payload "resources/list" in
  let url := String.append (base_url self) "/message" in
  response ← requests.post (session self) url payload;
  requests.raise_for_status url response;;
  result ← requests.json response;
  inner ← py_get result "result" (JDict ∅);
  py_get inner "resources" (JList []).

Definition purge_cache (self : t) (pattern : json) : prog json :=
  let args : gmap string json := ∅ in
  let args := if py_truthy pattern then <["pattern" := pattern]> args else args in
  _call_tool self "purge" args.

End MCPWebScrapeClient.

(** ** class AsyncMCPWebScrapeClient

    [session] is [None] until [__aenter__] has run; a method called
    before that fails on [self.session.post]. *)

Module AsyncMCPWebScrapeClient.

Record t : Type := {
  base_url : string;
  session : option (list (string * string))
}.

Definition __init__ (base_url : string) : t :=
  {| base_url := rstrip_slash base_url; session := None |}.

Definition __aenter__ (self : t) : t :=
  {| base_url := base_url self;
     session := Some [("Content-Type", "application/json");
                      ("User-Agent", "mcp-web-scrape-python-async-client/1.0")] |}.

(** [async with AsyncMCPWebScrapeClient() as client] *)
Definition default : t := __aenter__ (__init__ "http://localhost:3000").

(** [self.session.get] and [self.session.post] *)
Definition session_get (self : t) (url : string) : prog http_response :=
  match session self with
  | Some headers => aiohttp.get headers url
  | None => Raise AttributeError
  end.

Definition session_post (self : t) (url : string) (payload : json) : prog http_response :=
  match session self with
  | Some headers => aiohttp.post headers url payload
  | None => Raise AttributeError
  end.

Definition health_check (self : t) : prog json :=
  let url := String.append (base_url self) "/health" in
  response ← session_get self url;
  aiohttp.raise_for_status url response;;
  aiohttp.json response.

Definition list_tools (self : t) : prog json :=
  let payload := list_payload "tools/list" in
  let url := String.append (base_url self) "/message" in
  response ← session_post self url payload;
  aiohttp.raise_for_status url response;;
  result ← aiohttp.json response;
  inner ← py_get result "result" (JDict ∅);
  py_get inner "tools" (JList []).

Definition _call_tool (self : t) (tool_name : string) (arguments : gmap string json)
  : prog json :=
  now ← time_time;
  let payload := call_payload now tool_name arguments in
  let url := String.append (base_url self) "/message" in
  response ← session_post self url payload;
  aiohttp.raise_for_status url response;;
  result ← aiohttp.json response;
  has_error ← py_in "error" result;
  if has_error : bool then
    e ← py_getitem result "error";
    Raise (Exception_ [FLit "Tool call failed: "; FVal e])
  else py_get result "result" (JDict ∅).

Definition fetch_content (self : t) (url : json) (kwargs : gmap string json)
  : prog json :=
  _call_tool self "fetch" (dict_unpack (<["url" := url]> ∅) kwargs).

Definition extract_content (self : t) (url format : json) (kwargs : gmap string json)
  : prog json :=
  _call_tool self "extract"
    (dict_unpack (<["format" := format]> (<["url" := url]> ∅)) kwargs).

Definition summarize_content (self : t) (url : json) (kwargs : gmap string json)
  : prog json :=
  _call_tool self "summarize" (dict_unpack (<["url" := url]> ∅) kwargs).

Definition list_cache (self : t) : prog json :=
  let payload := list_payload "resources/list" in
  let url := String.append (base_url self) "/message" in
  response ← session_post self url payload;
  aiohttp.raise_for_status url response;;
  result ← aiohttp.json response;
  inner ← py_get result "result" (JDict ∅);
  py_get inner "resources" (JList []).

Definition purge_cache (self : t) (pattern : json) : prog json :=
  let args : gmap string json := ∅ in
  let args := if py_truthy pattern then <["pattern" := pattern]> args else args in
  _call_tool self "purge" args.

End AsyncMCPWebScrapeClient.

(** ** Running a program

    The world outside: the successive readings of the clock and the
    server, which answers a request knowing the requests made so far.
    The state of a run counts the readings taken and logs the requests
    sent. *)

Record world : Type := {
  clock : nat → Q;
  server : list http_request → http_request → reply
}.

Record run_state : Type := {
  reads : nat;
  sent : list http_request
}.

Definition start : run_state := {| reads := 0; sent := [] |}.

Inductive outcome (A : Type) : Type :=
  | Returned (a : A)
  | Raised (e : exn).

Arguments Returned {A} a.
Arguments Raised {A} e.

Fixpoint run {A : Type} (w : world) (p : prog A) (st : run_state)
  : outcome A * run_state :=
  match p with
  | Ret a => (Returned a, st)
  | Raise e => (Raised e, st)
  | Time k =>
      run w (k (clock w (reads st))) {| reads := S (reads st); sent := sent st |}
  | Send rq k =>
      run w (k (server w (sent st) rq))
          {| reads := reads st; sent := sent st ++ [rq] |}
  end.

(** A world for one round trip: the clock shows [now] and the server
    answers [rep]. *)
Definition once (now : Q) (rep : reply) : world :=
  {| clock := λ _, now; server := λ _ _, rep |}.

(** The requests a run of [p] sends, and its outcome, in such a world. *)
Definition requests_of {A : Type} (now : Q) (rep : reply) (p : prog A)
  : list http_request :=
  sent (run (once now rep) p start).2.

Definition result_of {A : Type} (now : Q) (rep : reply) (p : prog A) : outcome A :=
  (run (once now rep) p start).1.

(** Fields of a request envelope. *)
Definition field (key : string) (v : json) : option json :=
  match v with
  | JDict d => d !! key
  | _ => None
  end.

Definition envelope_field (key : string) (rq : http_request) : option json :=
  rq_json rq ≫= field key.

Definition envelope_param (key : string) (rq : http_request) : option json :=
  match envelope_field "params" rq with
  | Some params => field key params
  | None => None
  end.

(** A 2xx status. *)
Definition is_2xx (s : Z) : Prop := 200 ≤ s < 300.

(** The two kinds of error of the specification. *)
Inductive error_kind : Type :=
  | TransportError
  | ToolInvocationError
  | OtherError.

Definition kind_of (e : exn) : error_kind :=
  match e with
  | Requests_HTTPError _ _ | Requests_ConnectionError
  | Aiohttp_ClientResponseError _ _ | Aiohttp_ClientConnectionError => TransportError
  | Exception_ _ => ToolInvocationError
  | _ => OtherError
  end.

(** ** The operations of a client, and sessions

    An operation is a method with its arguments; a session performs
    operations one after the other through one client, the caller
    catching what an operation raises. *)

Inductive operation : Type :=
  | HealthCheck
  | ListTools
  | FetchContent (url : json) (kwargs : gmap string json)
  | ExtractContent (url format : json) (kwargs : gmap string json)
  | SummarizeContent (url : json) (kwargs : gmap string json)
  | ListCache
  | PurgeCache (pattern : json)
  | CallTool (tool_name : string) (arguments : gmap string json).

Definition perform (self : MCPWebScrapeClient.t) (op : operation) : prog json :=
  match op with
  | HealthCheck => MCPWebScrapeClient.health_check self
  | ListTools => MCPWebScrapeClient.list_tools self
  | FetchContent url kwargs => MCPWebScrapeClient.fetch_content self url kwargs
  | ExtractContent url format kwargs =>
      MCPWebScrapeClient.extract_content self url format kwargs
  | SummarizeContent url kwargs => MCPWebScrapeClient.summarize_content self url kwargs
  | ListCache => MCPWebScrapeClient.list_cache self
  | PurgeCache pattern => MCPWebScrapeClient.purge_cache self pattern
  | CallTool tool_name arguments => MCPWebScrapeClient._call_tool self tool_name arguments
  end.

Definition perform_async (self : AsyncMCPWebScrapeClient.t) (op : operation)
  : prog json :=
  match op with
  | HealthCheck => AsyncMCPWebScrapeClient.health_check self
  | ListTools => AsyncMCPWebScrapeClient.list_tools self
  | FetchContent url kwargs => AsyncMCPWebScrapeClient.fetch_content self url kwargs
  | ExtractContent url format kwargs =>
      AsyncMCPWebScrapeClient.extract_content self url format kwargs
  | SummarizeContent url kwargs =>
      AsyncMCPWebScrapeClient.summarize_content self url kwargs
  | ListCache => AsyncMCPWebScrapeClient.list_cache self
  | PurgeCache pattern => AsyncMCPWebScrapeClient.purge_cache self pattern
  | CallTool tool_name arguments =>
      AsyncMCPWebScrapeClient._call_tool self tool_name arguments
  end.

Fixpoint run_session (w : world) (self : MCPWebScrapeClient.t) (ops : list operation)
    (st : run_state) : list (outcome json) * run_state :=
  match ops with
  | [] => ([], st)
  | op :: rest =>
      let '(o, st1) := run w (perform self op) st in
      let '(os, st2) := run_session w self rest st1 in
      (o :: os, st2)
  end.

(** The requests of a session, from a fresh state. *)
Definition session_requests (w : world) (self : MCPWebScrapeClient.t)
    (ops : list operation) : list http_request :=
  sent (run_session w self ops start).2.

(** The [id] of the envelope of a request, when it has one. *)
Definition envelope_id (rq : http_request) : option json := envelope_field "id" rq.

(** The integer ids of the [tools/call] envelopes of a log. *)
Definition is_tool_call (rq : http_request) : bool :=
  match envelope_field "method" rq with
  | Some (JStr m) => String.eqb m "tools/call"
  | _ => false
  end.

Definition tool_call_ids (log : list http_request) : list Z :=
  omap (λ rq, if is_tool_call rq
              then match envelope_id rq with Some (JInt n) => Some n | _ => None end
              else None) log.

(** ** Binding the arguments of a call

    A call of a function with positional arguments [pos] and keyword
    arguments [kw], when the function is one whose parameters [params] may
    be given by position or by keyword (each with its default, if any)
    and which collects the other keywords in [**kwargs]: the positional
    arguments fill the parameters in order; a keyword that names a
    parameter already filled is a [TypeError], as is a parameter left
    without value and a positional argument in excess.  The result is
    the values of the parameters and the dict [kwargs]. *)

Fixpoint bind_params (params : list (string * option json)) (pos : list json)
    (kw : gmap string json) : option (list json * gmap string json) :=
  match params with
  | [] => match pos with [] => Some ([], kw) | _ :: _ => None end
  | (name, dflt) :: params' =>
      match pos with
      | v :: pos' =>
          match kw !! name with
          | Some _ => None
          | None =>
              '(vs, kwargs) ← bind_params params' pos' kw; Some (v :: vs, kwargs)
          end
      | [] =>
          match kw !! name, dflt with
          | Some v, _ =>
              '(vs, kwargs) ← bind_params params' [] (delete name kw);
              Some (v :: vs, kwargs)
          | None, Some d =>
              '(vs, kwargs) ← bind_params params' [] kw; Some (d :: vs, kwargs)
          | None, None => None
          end
      end
  end.

(** A call of a bound method: [self] is filled by the object. *)
Definition bind_method (params : list (string * option json)) (pos : list json)
    (kw : gmap string json) : option (list json * gmap string json) :=
  match kw !! "self" with
  | Some _ => None
  | None => bind_params params pos kw
  end.

(** A call of [client.fetch_content] with the arguments [pos] and [kw],
    and the like. *)
Definition call_fetch_content (self : MCPWebScrapeClient.t) (pos : list json)
    (kw : gmap string json) : prog json :=
  match bind_method [("url", None)] pos kw with
  | Some ([url], kwargs) => MCPWebScrapeClient.fetch_content self url kwargs
  | _ => Raise TypeError
  end.

Definition call_extract_content (self : MCPWebScrapeClient.t) (pos : list json)
    (kw : gmap string json) : prog json :=
  match bind_method [("url", None); ("format", Some (JStr "text"))] pos kw with
  | Some ([url; format], kwargs) =>
      MCPWebScrapeClient.extract_content self url format kwargs
  | _ => Raise TypeError
  end.

Definition call_summarize_content (self : MCPWebScrapeClient.t) (pos : list json)
    (kw : gmap string json) : prog json :=
  match bind_method [("url", None)] pos kw with
  | Some ([url], kwargs) => MCPWebScrapeClient.summarize_content self url kwargs
  | _ => Raise TypeError
  end.

(** ** asyncio.gather with return_exceptions=True

    Each coroutine is a task of the event loop.  A task runs until it
    awaits the response to a request, and is resumed when the response
    has come; which task the loop takes next is given by a schedule, a
    list of positions.  With [return_exceptions=True] what a task raises
    is its result.  [gather] is done when every task is, and its result
    lists the results of the tasks in the order of the coroutines. *)

Inductive task : Type :=
  | NotStarted (p : prog json)
  | Awaiting (rq : http_request) (k : reply → prog json)
  | Finished (o : outcome json).

Record loop_world : Type := {
  loop_clock : nat → Q;
  (* the response to the request of the task at a position *)
  network : nat → http_request → reply
}.

Fixpoint advance (w : loop_world) (p : prog json) (n : nat) : task * nat :=
  match p with
  | Ret a => (Finished (Returned a), n)
  | Raise e => (Finished (Raised e), n)
  | Time k => advance w (k (loop_clock w n)) (S n)
  | Send rq k => (Awaiting rq k, n)
  end.

Definition loop_step (w : loop_world) (st : list task * nat) (i : nat)
  : list task * nat :=
  match st.1 !! i with
  | Some (NotStarted p) =>
      let '(t, n) := advance w p st.2 in (<[i := t]> st.1, n)
  | Some (Awaiting rq k) =>
      let '(t, n) := advance w (k (network w i rq)) st.2 in (<[i := t]> st.1, n)
  | Some (Finished _) | None => st
  end.

Definition loop_run (w : loop_world) (schedule : list nat) (st : list task * nat)
  : list task * nat :=
  foldl (loop_step w) st schedule.

Definition task_result (t : task) : option (outcome json) :=
  match t with
  | Finished o => Some o
  | _ => None
  end.

Definition gather (w : loop_world) (schedule : list nat) (coros : list (prog json))
  : option (list (outcome json)) :=
  mapM task_result (loop_run w schedule (NotStarted <$> coros, 0%nat)).1.

(** [tasks = [client.fetch_content(url) for url in urls]] *)
Definition async_example_tasks (client : AsyncMCPWebScrapeClient.t) (urls : list json)
  : list (prog json) :=
  (λ url, AsyncMCPWebScrapeClient.fetch_content client url ∅) <$> urls.

(** [isinstance(result, Exception)] *)
Definition is_exception {A : Type} (o : outcome A) : bool :=
  match o with
  | Raised _ => true
  | Returned _ => false
  end.

(** The requests the methods post. *)
Definition call_request (url : string) (headers : list (string * string))
    (now : Q) (tool_name : string) (arguments : gmap string json) : http_request :=
  {| rq_verb := POST; rq_url := url; rq_headers := headers;
     rq_json := Some (call_payload now tool_name arguments) |}.

Definition list_request (url : string) (headers : list (string * string))
    (method : string) : http_request :=
  {| rq_verb := POST; rq_url := url; rq_headers := headers;
     rq_json := Some (list_payload method) |}.

(** The URL an operation addresses. *)
Definition endpoint (base_url : string) (op : operation) : string :=
  match op with
  | HealthCheck => String.append base_url "/health"
  | _ => String.append base_url "/message"
  end.

(** A request without the headers of its session. *)
Definition wire (rq : http_request) : verb * string * option json :=
  (rq_verb rq, rq_url rq, rq_json rq).

(** The exception of [requests] that stands for one of [aiohttp]. *)
Definition as_requests (e : exn) : exn :=
  match e with
  | Aiohttp_ClientResponseError s url => Requests_HTTPError s url
  | Aiohttp_ClientConnectionError => Requests_ConnectionError
  | Json_JSONDecodeError => Requests_JSONDecodeError
  | _ => e
  end.

Definition outcome_map {A : Type} (f : exn → exn) (o : outcome A) : outcome A :=
  match o with
  | Returned a => Returned a
  | Raised e => Raised (f e)
  end.

(** The replies on which the two libraries behave alike: no status of
    600 or more, and below 400 a JSON Content-Type and a body that is
    not blank. *)
Definition alike (rep : reply) : Prop :=
  match rep with
  | ConnectionFailed => True
  | Response r =>
      status r < 600 ∧ (status r < 400 → ctype_json r = true ∧ body r ≠ BodyBlank)
  end.

(** The operations that go through [_call_tool]. *)
Definition is_call (op : operation) : bool :=
  match op with
  | HealthCheck | ListTools | ListCache => false
  | _ => true
  end.

(** A clock that shows the seconds [0, 1, 2, ...] at its successive
    readings, and one that stays within the second 1700000000. *)
Definition ticking_clock (n : nat) : Q := inject_Z (Z.of_nat n).

Definition busy_clock (n : nat) : Q :=
  (17000000002 + 5 * Z.of_nat n) # 10.

Definition empty_result : reply :=
  Response {| status := 200; ctype_json := true;
              body := BodyJson (JDict (<["result" := JDict ∅]> ∅)) |}.

(** The payloads of the examples of the specification. *)
Definition bad_url : json :=
  JDict (<["code" := JInt (-1)]> (<["message" := JStr "bad url"]> ∅)).

Definition fetch_tool : json := JDict (<["name" := JStr "fetch"]> ∅).

(** The [arguments] of the envelopes a program sends. *)
Definition sent_arguments {A : Type} (now : Q) (rep : reply) (p : prog A)
  : list (option json) :=
  envelope_param "arguments" <$> requests_of now rep p.

(** How many times a schedule takes the task at a position. *)
Definition visits (i : nat) (schedule : list nat) : nat :=
  length (filter (λ j, j = i) schedule).

(** The request of [fetch_content(url)] through the client made from
    [client0], its session open, when the clock shows [now]. *)
Definition fetch_request (client0 : AsyncMCPWebScrapeClient.t) (now : Q) (url : json)
  : http_request :=
  call_request (String.append (AsyncMCPWebScrapeClient.base_url client0) "/message")
    [("Content-Type", "application/json");
     ("User-Agent", "mcp-web-scrape-python-async-client/1.0")]
    now "fetch" (dict_unpack (<["url" := url]> ∅) ∅).

(** The urls of [async_example], and a world in which the call at
    position 1 gets a 500 and the others an empty result. *)
Definition example_urls : list json :=
  [JStr "https://example.com"; JStr "https://httpbin.org/html";
   JStr "https://jsonplaceholder.typicode.com/posts/1"].

Definition partial_failure : loop_world :=
  {| loop_clock := busy_clock;
     network := λ i _,
       if (i =? 1)%nat
       then Response {| status := 500; ctype_json := false; body := BodyMalformed |}
       else empty_result |}.

(** The coroutine of [client.fetch_content(url)], the session of the
    client open. *)
Definition fetch_task (client0 : AsyncMCPWebScrapeClient.t) (url : json) : prog json :=
  AsyncMCPWebScrapeClient.fetch_content (AsyncMCPWebScrapeClient.__aenter__ client0)
    url ∅.

(** What the slot of the call for [url] at position [i] holds after the
    loop has taken it [c] times. *)
Definition slot_ok (w : loop_world) (client0 : AsyncMCPWebScrapeClient.t)
    (i : nat) (url : json) (c : nat) (t : task) : Prop :=
  match c with
  | O => t = NotStarted (fetch_task client0 url)
  | S O =>
      ∃ n k, t = Awaiting (fetch_request client0 (loop_clock w n) url) k ∧
             ∀ rep m,
               advance w (k rep) m
               = (Finished (result_of (loop_clock w n) rep (fetch_task client0 url)),
                  m)
  | _ =>
      ∃ n, t = Finished
                 (result_of (loop_clock w n)
                    (network w i (fetch_request client0 (loop_clock w n) url))
                    (fetch_task client0 url))
  end.

Definition loop_inv (w : loop_world) (client0 : AsyncMCPWebScrapeClient.t)
    (urls : list json) (done : list nat) (st : list task * nat) : Prop :=
  length st.1 = length urls ∧
  ∀ i url, urls !! i = Some url →
    ∃ t, st.1 !! i = Some t ∧ slot_ok w client0 i url (visits i done) t.

(** ** More on the base URL *)

(** [n] slashes, and the last character of a string. *)
Fixpoint slashes (n : nat) : string :=
  match n with
  | O => ""
  | S n => String "/" (slashes n)
  end.

Fixpoint last_char (s : string) : option ascii :=
  match s with
  | EmptyString => None
  | String c EmptyString => Some c
  | String _ rest => last_char rest
  end.

(** The JSON values that are not objects. *)
Definition is_object (j : json) : bool :=
  match j with
  | JDict _ => true
  | _ => false
  end.

(** ** The example scripts

    The functions at the end of the file print, sleep, close the client
    and call its methods, catching what these raise.  A script is a
    program with these four events; a call of a method runs to its end
    before the script goes on. *)

(** What a script may raise: an exception of a method, or the
    [IndexError] of [x[0]]. *)
Inductive raised : Type :=
  | Exn (e : exn)
  | IndexError.

(** The parts of a printed line: text, a value, an exception. *)
Inductive piece : Type :=
  | PLit (s : string)
  | PVal (v : json)
  | PErr (e : raised).

Inductive script (A : Type) : Type :=
  | Done (a : A)
  | Fail (e : raised)
  | Print (line : list piece) (k : script A)
  | Sleep (seconds : Z) (k : script A)
  | Close (k : script A)
  | Call (p : prog json) (k : outcome json → script A).

Arguments Done {A} a.
Arguments Fail {A} e.
Arguments Print {A} line k.
Arguments Sleep {A} seconds k.
Arguments Close {A} k.
Arguments Call {A} p k.

Fixpoint script_bind {A B : Type} (f : A → script B) (s : script A) : script B :=
  match s with
  | Done a => f a
  | Fail e => Fail e
  | Print line k => Print line (script_bind f k)
  | Sleep n k => Sleep n (script_bind f k)
  | Close k => Close (script_bind f k)
  | Call p k => Call p (λ o, script_bind f (k o))
  end.

#[global] Instance script_mret : MRet script := @Done.
#[global] Instance script_mbind : MBind script := @script_bind.

(** [try: s  except Exception as e: handler(e)] *)
Fixpoint try_except {A : Type} (s : script A) (handler : raised → script A)
  : script A :=
  match s with
  | Done a => Done a
  | Fail e => handler e
  | Print line k => Print line (try_except k handler)
  | Sleep n k => Sleep n (try_except k handler)
  | Close k => Close (try_except k handler)
  | Call p k => Call p (λ o, try_except (k o) handler)
  end.

(** [try: s  finally: final]: [final] runs in both cases, and what [s]
    raised is raised again after it. *)
Fixpoint try_finally {A : Type} (s : script A) (final : script unit) : script A :=
  match s with
  | Done a => final ≫= λ _, Done a
  | Fail e => final ≫= λ _, Fail e
  | Print line k => Print line (try_finally k final)
  | Sleep n k => Sleep n (try_finally k final)
  | Close k => Close (try_finally k final)
  | Call p k => Call p (λ o, try_finally (k o) final)
  end.

(** A call of a method, or of an operation on a value, in a script. *)
Definition call (p : prog json) : script json :=
  Call p (λ o, match o with
               | Returned v => Done v
               | Raised e => Fail (Exn e)
               end).

(** [v[0]] *)
Definition py_first (v : json) : script json :=
  match v with
  | JList [] => Fail IndexError
  | JList (x :: _) => Done x
  | JStr EmptyString => Fail IndexError
  | JStr (String c _) => Done (JStr (String c EmptyString))
  | JDict _ => Fail (Exn KeyError)
  | _ => Fail (Exn TypeError)
  end.

(** [len(v)]; a string is the sequence of its characters. *)
Definition py_len (v : json) : script Z :=
  match v with
  | JStr s => Done (Z.of_nat (String.length s))
  | JList l => Done (Z.of_nat (length l))
  | JDict d => Done (Z.of_nat (size d))
  | _ => Fail (Exn TypeError)
  end.

(** What a script does, in order. *)
Inductive event : Type :=
  | Printed (line : list piece)
  | Slept (seconds : Z)
  | Closed
  | Sent (rq : http_request).

Fixpoint exec {A : Type} (w : world) (s : script A) (st : run_state)
  : (A + raised) * run_state * list event :=
  match s with
  | Done a => (inl a, st, [])
  | Fail e => (inr e, st, [])
  | Print line k =>
      let '(r, st', t) := exec w k st in (r, st', Printed line :: t)
  | Sleep n k =>
      let '(r, st', t) := exec w k st in (r, st', Slept n :: t)
  | Close k =>
      let '(r, st', t) := exec w k st in (r, st', Closed :: t)
  | Call p k =>
      let '(o, st1) := run w p st in
      let '(r, st2, t) := exec w (k o) st1 in
      (r, st2, (Sent <$> drop (length (sent st)) (sent st1)) ++ t)
  end.

(** The requests, the sleeps and the number of closings of a trace. *)
Definition sends (t : list event) : list http_request :=
  omap (λ e, match e with Sent rq => Some rq | _ => None end) t.

Definition sleeps (t : list event) : list Z :=
  omap (λ e, match e with Slept n => Some n | _ => None end) t.

Definition closings (t : list event) : nat :=
  length (omap (λ e, match e with Closed => Some tt | _ => None end) t).

(** *** batch_processing_example *)

(** An entry of [results]: the dict with [url], [title],
    [content_length] and [success: True], or the dict with [url],
    [error] and [success: False], the exception standing for its
    text. *)
Inductive batch_entry : Type :=
  | Succeeded (url title : json) (content_length : Z)
  | Failed (url : json) (error : raised).

Definition entry_url (e : batch_entry) : json :=
  match e with
  | Succeeded url _ _ => url
  | Failed url _ => url
  end.

(** [r['success']] *)
Definition entry_success (e : batch_entry) : bool :=
  match e with
  | Succeeded _ _ _ => true
  | Failed _ _ => false
  end.

Definition newline : string := String "010" EmptyString.

(** The keywords of the call of [extract_content] in the loop. *)
Definition batch_keywords : gmap string json :=
  <["format" := JStr "markdown"]>
    (<["include_links" := JBool true]> (<["include_images" := JBool false]> ∅)).

(** One turn of the loop, for the [i]-th of [n] urls. *)
Definition batch_item (client : MCPWebScrapeClient.t) (i n : Z) (url : json)
    (results : list batch_entry) : script (list batch_entry) :=
  Print [PLit "Processing "; PVal (JInt i); PLit "/"; PVal (JInt n); PLit ": ";
         PVal url]
    (results' ←
       try_except
         (result ← call (call_extract_content client [url] batch_keywords);
          content_list ← call (py_get result "content" (JList [JStr ""]));
          content ← py_first content_list;
          title ← call (py_get result "title" (JStr "Unknown"));
          content_length ← py_len content;
          Print [PLit "  ✓ Success: "; PVal (JInt content_length);
                 PLit " characters"]
            (Done (results ++ [Succeeded url title content_length])))
         (λ e, Print [PLit "  ✗ Failed: "; PErr e]
                 (Done (results ++ [Failed url e])));
     Sleep 1 (Done results')).

Fixpoint batch_loop (client : MCPWebScrapeClient.t) (i n : Z) (urls : list json)
    (results : list batch_entry) : script (list batch_entry) :=
  match urls with
  | [] => Done results
  | url :: rest =>
      results' ← batch_item client i n url results;
      batch_loop client (i + 1) n rest results'
  end.

(** The function after [urls] and [client] are set. *)
Definition batch_processing (client : MCPWebScrapeClient.t) (urls : list json)
  : script unit :=
  try_finally
    (results ← batch_loop client 1 (Z.of_nat (length urls)) urls [];
     let successful := Z.of_nat (length (filter (λ r, entry_success r = true) results)) in
     Print [PLit newline; PLit "Batch complete: "; PVal (JInt successful); PLit "/";
            PVal (JInt (Z.of_nat (length urls))); PLit " successful"]
       (cache ← call (MCPWebScrapeClient.list_cache client);
        items ← py_len cache;
        Print [PLit "Cache now contains: "; PVal (JInt items); PLit " items"]
          (Done tt)))
    (Close (Done tt)).

Definition batch_processing_example : script unit :=
  Print [PLit newline; PLit "=== Batch Processing Example ==="]
    (batch_processing MCPWebScrapeClient.default
       [JStr "https://news.ycombinator.com"; JStr "https://github.com";
        JStr "https://stackoverflow.com"]).

(** The request of the call of [extract_content] for [url] in the loop,
    when the clock shows [now]. *)
Definition batch_request (client : MCPWebScrapeClient.t) (now : Q) (url : json)
  : http_request :=
  call_request (String.append (MCPWebScrapeClient.base_url client) "/message")
    (MCPWebScrapeClient.session client) now "extract"
    (<["url" := url]> batch_keywords).

(** *** cache_management_example *)

(** The characters of a string, each a string of length one. *)
Fixpoint chars (s : string) : list json :=
  match s with
  | EmptyString => []
  | String c rest => JStr (String c EmptyString) :: chars rest
  end.

(** The items a [for] loop takes from a value: those of a list, the
    characters of a string, the keys of a dict (here in the order of the
    map, which is not the order of insertion; the script calls [.get] on
    each item, which no key has). *)
Definition py_iter (v : json) : script (list json) :=
  match v with
  | JList l => Done l
  | JStr s => Done (chars s)
  | JDict d => Done (JStr <$> (map_to_list d).*1)
  | _ => Fail (Exn TypeError)
  end.

(** One turn of the loop that fills the cache. *)
Definition populate_item (client : MCPWebScrapeClient.t) (url : json) : script unit :=
  try_except
    (_ ← call (call_fetch_content client [url] ∅);
     Print [PLit "  ✓ Cached: "; PVal url] (Done tt))
    (λ e, Print [PLit "  ✗ Failed: "; PVal url; PLit " - "; PErr e] (Done tt)).

Fixpoint populate (client : MCPWebScrapeClient.t) (urls : list json) : script unit :=
  match urls with
  | [] => Done tt
  | url :: rest => populate_item client url ≫= λ _, populate client rest
  end.

(** One turn of the loop that shows the cache. *)
Definition show_item (item : json) : script unit :=
  uri ← call (py_get item "uri" (JStr "Unknown"));
  name ← call (py_get item "name" (JStr "No name"));
  Print [PLit "  - "; PVal uri; PLit ": "; PVal name] (Done tt).

Fixpoint show_items (items : list json) : script unit :=
  match items with
  | [] => Done tt
  | item :: rest => show_item item ≫= λ _, show_items rest
  end.

(** [cache = client.list_cache()] and the print of [len(cache)]. *)
Definition show_cache (client : MCPWebScrapeClient.t) (text : list piece)
  : script json :=
  cache ← call (MCPWebScrapeClient.list_cache client);
  items ← py_len cache;
  Print (text ++ [PVal (JInt items); PLit " items"]) (Done cache).

(** The function after [client] and [test_urls] are set. *)
Definition cache_management (client : MCPWebScrapeClient.t) (test_urls : list json)
  : script unit :=
  try_finally
    (_ ← show_cache client [PLit "Initial cache: "];
     Print [PLit newline; PLit "Populating cache..."]
       (_ ← populate client test_urls;
        cache ← show_cache client [PLit newline; PLit "Cache after population: "];
        items ← py_iter cache;
        _ ← show_items items;
        Print [PLit newline; PLit "Purging example.com from cache..."]
          (purge_result ←
             call (MCPWebScrapeClient.purge_cache client (JStr "example.com"));
           Print [PLit "Purge result: "; PVal purge_result]
             (_ ← show_cache client [PLit "Cache after purge: "];
              Done tt))))
    (Close (Done tt)).

Definition cache_management_example : script unit :=
  Print [PLit newline; PLit "=== Cache Management Example ==="]
    (cache_management MCPWebScrapeClient.default
       [JStr "https://example.com"; JStr "https://httpbin.org/html"]).

(** A run of a script that closes nothing and sleeps never, whose
    requests are logged, and whose requests are an initial part of
    [plan]: all of [plan], with [k] readings of the clock, when the
    script ends without raising. *)
Definition steady {A : Type} (st : run_state) (plan : list http_request) (k : nat)
    (x : (A + raised) * run_state * list event) : Prop :=
  closings x.2 = 0%nat ∧
  sleeps x.2 = [] ∧
  sent x.1.2 = sent st ++ sends x.2 ∧
  sends x.2 `prefix_of` plan ∧
  ∀ a, x.1.1 = inl a → sends x.2 = plan ∧ reads x.1.2 = (reads st + k)%nat.

(** * Properties *)

(** ** The helpers on small inputs *)

Example rstrip_slash_trailing :
  rstrip_slash "http://localhost:3000///" = "http://localhost:3000" ∧
  rstrip_slash "http://a/b" = "http://a/b" ∧ rstrip_slash "//" = "".
Proof. by vm_compute. Qed.

Example py_int_truncates :
  py_int (17 # 10) = 1 ∧ py_int (-17 # 10) = -1 ∧ py_int (busy_clock 1) = 1700000000.
Proof. by vm_compute. Qed.

Example str_contains_error :
  str_contains "error" "an error page" = true ∧ str_contains "error" "ok" = false.
Proof. by vm_compute. Qed.

(** [client.extract_content("https://example.com", format="markdown",
    include_links=True)], the call of [sync_example]: [format] is the
    parameter and [include_links] the only extra keyword. *)
Example bind_extract_content :
  bind_method [("url", None); ("format", Some (JStr "text"))]
    [JStr "https://example.com"]
    (<["format" := JStr "markdown"]> (<["include_links" := JBool true]> ∅))
  = Some ([JStr "https://example.com"; JStr "markdown"],
          <["include_links" := JBool true]> ∅).
Proof. by vm_compute. Qed.

Example extract_content_arguments :
  sent_arguments 0 empty_result
    (call_extract_content MCPWebScrapeClient.default [JStr "https://example.com"]
       (<["format" := JStr "markdown"]> (<["include_links" := JBool true]> ∅)))
  = [Some (JDict (<["url" := JStr "https://example.com"]>
                 (<["format" := JStr "markdown"]>
                 (<["include_links" := JBool true]> ∅))))].
Proof. by vm_compute. Qed.

(** Unfolding the methods down to the events, and case analysis on what
    the response holds. *)
Ltac unfold_client :=
  unfold MCPWebScrapeClient.fetch_content, MCPWebScrapeClient.extract_content,
    MCPWebScrapeClient.summarize_content, MCPWebScrapeClient.purge_cache,
    AsyncMCPWebScrapeClient.fetch_content, AsyncMCPWebScrapeClient.extract_content,
    AsyncMCPWebScrapeClient.summarize_content, AsyncMCPWebScrapeClient.purge_cache;
  unfold MCPWebScrapeClient.health_check, MCPWebScrapeClient.list_tools,
    MCPWebScrapeClient.list_cache, MCPWebScrapeClient._call_tool,
    AsyncMCPWebScrapeClient.health_check, AsyncMCPWebScrapeClient.list_tools,
    AsyncMCPWebScrapeClient.list_cache, AsyncMCPWebScrapeClient._call_tool,
    AsyncMCPWebScrapeClient.session_post, AsyncMCPWebScrapeClient.session_get,
    requests.post, requests.get, requests.roundtrip, requests.raise_for_status,
    requests.json, aiohttp.post, aiohttp.get, aiohttp.roundtrip,
    aiohttp.raise_for_status, aiohttp.json, time_time, py_in, py_get, py_getitem.

Ltac run_step :=
  cbn -[call_payload list_payload String.append Z.leb Z.ltb dict_unpack] in *.

Ltac crunch := repeat (run_step; try done; case_match).

Section Runs.

Context (w : world) (st : run_state) (self : MCPWebScrapeClient.t).

Let message := String.append (MCPWebScrapeClient.base_url self) "/message".
Let headers := MCPWebScrapeClient.session self.

Lemma run_call_tool_state name args :
  (run w (MCPWebScrapeClient._call_tool self name args) st).2 =
  {| reads := S (reads st);
     sent := sent st ++ [call_request message headers (clock w (reads st)) name args] |}.
Proof. unfold_client. crunch. Qed.

Lemma run_list_tools_state :
  (run w (MCPWebScrapeClient.list_tools self) st).2 =
  {| reads := reads st;
     sent := sent st ++ [list_request message headers "tools/list"] |}.
Proof. unfold_client. crunch. Qed.

Lemma run_list_cache_state :
  (run w (MCPWebScrapeClient.list_cache self) st).2 =
  {| reads := reads st;
     sent := sent st ++ [list_request message headers "resources/list"] |}.
Proof. unfold_client. crunch. Qed.

Lemma run_health_check_state :
  (run w (MCPWebScrapeClient.health_check self) st).2 =
  {| reads := reads st;
     sent := sent st ++
       [{| rq_verb := GET;
           rq_url := String.append (MCPWebScrapeClient.base_url self) "/health";
           rq_headers := headers; rq_json := None |}] |}.
Proof. unfold_client. crunch. Qed.

End Runs.

(** ** The envelope of a tool call *)

Lemma call_payload_fields now name args :
  field "jsonrpc" (call_payload now name args) = Some (JStr "2.0") ∧
  field "id" (call_payload now name args) = Some (JInt (py_int now)) ∧
  field "method" (call_payload now name args) = Some (JStr "tools/call") ∧
  (field "params" (call_payload now name args) ≫= field "name") = Some (JStr name) ∧
  (field "params" (call_payload now name args) ≫= field "arguments")
    = Some (JDict args).
Proof. repeat split. Qed.

Lemma list_payload_fields method :
  field "jsonrpc" (list_payload method) = Some (JStr "2.0") ∧
  field "id" (list_payload method) = Some (JInt 1) ∧
  field "method" (list_payload method) = Some (JStr method) ∧
  field "params" (list_payload method) = None.
Proof. repeat split. Qed.

(** C5: whatever the tool name and the arguments, [_call_tool] posts one
    request, to [base_url/message], whose envelope has [jsonrpc] "2.0",
    [method] "tools/call", [params.name] the tool name and
    [params.arguments] the arguments, both as given. *)
Theorem call_tool_envelope (w : world) (st : run_state) (self : MCPWebScrapeClient.t)
    (tool_name : string) (arguments : gmap string json) :
  ∃ rq,
    sent (run w (MCPWebScrapeClient._call_tool self tool_name arguments) st).2
      = sent st ++ [rq] ∧
    rq_verb rq = POST ∧
    rq_url rq = String.append (MCPWebScrapeClient.base_url self) "/message" ∧
    envelope_field "jsonrpc" rq = Some (JStr "2.0") ∧
    envelope_field "method" rq = Some (JStr "tools/call") ∧
    envelope_param "name" rq = Some (JStr tool_name) ∧
    envelope_param "arguments" rq = Some (JDict arguments).
Proof.
  rewrite run_call_tool_state. eexists. split; [reflexivity|].
  repeat split.
Qed.

Lemma requests_of_call_tool now rep self name args :
  requests_of now rep (MCPWebScrapeClient._call_tool self name args) =
  [call_request (String.append (MCPWebScrapeClient.base_url self) "/message")
     (MCPWebScrapeClient.session self) now name args].
Proof. unfold requests_of. by rewrite run_call_tool_state. Qed.

(** ** The arguments of a purge *)

(** C3, counterexample: for the pattern [""], a string that is supplied,
    [purge_cache] does not send [{"pattern": ""}]; it sends [{}]. *)
Lemma purge_cache_empty_pattern :
  envelope_param "arguments" <$>
    requests_of 0 empty_result
      (MCPWebScrapeClient.purge_cache MCPWebScrapeClient.default (JStr ""))
  ≠ [Some (JDict (<["pattern" := JStr ""]> ∅))].
Proof. vm_compute. discriminate. Qed.

(** C3, amended: [purge_cache(None)] and [purge_cache("")] send the
    empty mapping as [arguments], and for every pattern string that is
    not empty [purge_cache(pattern)] sends [{"pattern": pattern}]. *)
Theorem purge_cache_arguments (now : Q) (rep : reply) (self : MCPWebScrapeClient.t)
    (pattern : string) (Hpattern : pattern ≠ "") :
  envelope_param "arguments" <$>
    requests_of now rep (MCPWebScrapeClient.purge_cache self JNull)
    = [Some (JDict ∅)] ∧
  envelope_param "arguments" <$>
    requests_of now rep (MCPWebScrapeClient.purge_cache self (JStr ""))
    = [Some (JDict ∅)] ∧
  envelope_param "arguments" <$>
    requests_of now rep (MCPWebScrapeClient.purge_cache self (JStr pattern))
    = [Some (JDict (<["pattern" := JStr pattern]> ∅))].
Proof.
  unfold MCPWebScrapeClient.purge_cache. rewrite !requests_of_call_tool.
  split_and!; [done..|].
  cbn [py_truthy]. destruct (String.eqb_spec pattern ""); [done|]. done.
Qed.

Lemma purge_cache_arguments_witness :
  envelope_param "arguments" <$>
    requests_of 0 empty_result
      (MCPWebScrapeClient.purge_cache MCPWebScrapeClient.default (JStr "foo"))
    = [Some (JDict (<["pattern" := JStr "foo"]> ∅))].
Proof.
  apply (purge_cache_arguments 0 empty_result MCPWebScrapeClient.default "foo").
  discriminate.
Defined.

(** ** Unwrapping the response of a tool call *)

Lemma append_empty_r (s : string) : String.append s "" = s.
Proof.
  induction s as [|c s IH]; [reflexivity|].
  change (String c (String.append s "") = String c s). by rewrite IH.
Qed.

(** C4: on a 2xx response whose JSON body is an object, [_call_tool]
    raises an [Exception] whose message is "Tool call failed: " followed
    by the payload of [error] when the object has that field; when it
    has not, it returns the value of [result], or the empty object when
    [result] is absent too. *)
Theorem call_tool_unwraps (self : MCPWebScrapeClient.t) (tool_name : string)
    (arguments : gmap string json) (now : Q) (r : http_response)
    (d : gmap string json)
    (Hstatus : is_2xx (status r)) (Hbody : body r = BodyJson (JDict d)) :
  let result :=
    result_of now (Response r)
      (MCPWebScrapeClient._call_tool self tool_name arguments) in
  (∀ e, d !! "error" = Some e →
     result = Raised (Exception_ [FLit "Tool call failed: "; FVal e]) ∧
     ∀ py_str, render py_str [FLit "Tool call failed: "; FVal e]
               = String.append "Tool call failed: " (py_str e)) ∧
  (d !! "error" = None →
     (∀ v, d !! "result" = Some v → result = Returned v) ∧
     (d !! "result" = None → result = Returned (JDict ∅))).
Proof.
  unfold is_2xx in Hstatus. unfold result_of. unfold_client.
  assert ((400 <=? status r) && (status r <? 600) = false) as Hok
    by (apply andb_false_iff; left; lia).
  split.
  - intros e He. split.
    + run_step. rewrite Hok. run_step. rewrite Hbody. run_step.
      rewrite He. done.
    + intros py_str. cbn [render foldr]. by rewrite append_empty_r.
  - intros Herr. split; [intros v Hv|intros Hv];
      run_step; rewrite Hok; run_step; rewrite Hbody; run_step;
      rewrite Herr; run_step; by rewrite Hv.
Qed.

Lemma call_tool_unwraps_witness :
  result_of 0
    (Response {| status := 200; ctype_json := true;
                 body := BodyJson (JDict (<["error" := bad_url]> ∅)) |})
    (MCPWebScrapeClient._call_tool MCPWebScrapeClient.default "fetch" ∅)
  = Raised (Exception_ [FLit "Tool call failed: "; FVal bad_url]).
Proof.
  apply (call_tool_unwraps MCPWebScrapeClient.default "fetch" ∅ 0
           {| status := 200; ctype_json := true;
              body := BodyJson (JDict (<["error" := bad_url]> ∅)) |}
           (<["error" := bad_url]> ∅)).
  - unfold is_2xx. simpl. lia.
  - reflexivity.
  - reflexivity.
Defined.

(** ** Listing tools and resources *)



(** ** An [error] in the response to a listing *)

(** [_call_tool] and its wrappers do raise on an [error] field: the
    exception is a plain [Exception], of another kind than the errors of
    the transport. *)
Lemma call_tool_raises_invocation_error (self : MCPWebScrapeClient.t) (op : operation)
    (now : Q) (r : http_response) (d : gmap string json) (e : json) :
  match op with HealthCheck | ListTools | ListCache => False | _ => True end →
  is_2xx (status r) → body r = BodyJson (JDict d) → d !! "error" = Some e →
  ∃ x, result_of now (Response r) (perform self op) = Raised x ∧
       kind_of x = ToolInvocationError.
Proof.
  intros Hop Hstatus Hbody He. unfold is_2xx in Hstatus.
  assert ((400 <=? status r) && (status r <? 600) = false) as Hok
    by (apply andb_false_iff; left; lia).
  exists (Exception_ [FLit "Tool call failed: "; FVal e]). split; [|done].
  destruct op; try done; unfold result_of; cbn [perform]; unfold_client;
    run_step; rewrite Hok; run_step; rewrite Hbody; run_step; by rewrite He.
Qed.

(** C2, the failing input: the server answers 200 with the body
    [{"error": {"code": -1, "message": "bad url"}}]; [list_tools] and
    [list_cache] raise nothing and return the empty list. *)
Theorem list_swallows_error :
  let rep := Response {| status := 200; ctype_json := true;
                         body := BodyJson (JDict (<["error" := bad_url]> ∅)) |} in
  result_of 0 rep (MCPWebScrapeClient.list_tools MCPWebScrapeClient.default)
    = Returned (JList []) ∧
  result_of 0 rep (MCPWebScrapeClient.list_cache MCPWebScrapeClient.default)
    = Returned (JList []) ∧
  result_of 0 rep (AsyncMCPWebScrapeClient.list_tools AsyncMCPWebScrapeClient.default)
    = Returned (JList []) ∧
  result_of 0 rep (AsyncMCPWebScrapeClient.list_cache AsyncMCPWebScrapeClient.default)
    = Returned (JList []).
Proof. by vm_compute. Qed.

(** ** The status of the response *)

Lemma x304_not_2xx : ¬ is_2xx 304.
Proof. unfold is_2xx. lia. Qed.




(** ** The two clients compared *)

(** C8, counterexample: the server answers 200 with a JSON body under a
    Content-Type that is not JSON; [list_tools] of the synchronous
    client returns the tools, [list_tools] of the asynchronous client
    raises a [ContentTypeError]. *)
Lemma content_type_separates_clients :
  let rep := Response {| status := 200; ctype_json := false;
                         body := BodyJson
                           (JDict (<["result" :=
                              JDict (<["tools" := JList [fetch_tool]]> ∅)]> ∅)) |} in
  result_of 0 rep (perform MCPWebScrapeClient.default ListTools)
    = Returned (JList [fetch_tool]) ∧
  result_of 0 rep (perform_async AsyncMCPWebScrapeClient.default ListTools)
    = Raised Aiohttp_ContentTypeError.
Proof. by vm_compute. Qed.

(** C8, amended: for the same base URL, every operation of the
    asynchronous client, its session open, sends the same request as the
    synchronous client (same verb, URL and envelope; the User-Agent
    differs); and on every reply on which the two libraries behave alike
    (a failed connection, or a status below 600 with, below 400, a JSON
    Content-Type and a body that is not blank) it yields the same
    result, or the exception of [aiohttp] that stands for the one of
    [requests]. *)
Theorem async_matches_sync (base_url : string) (op : operation) (now : Q)
    (rep : reply) (Halike : alike rep) :
  let self := MCPWebScrapeClient.__init__ base_url in
  let aself := AsyncMCPWebScrapeClient.__aenter__
                 (AsyncMCPWebScrapeClient.__init__ base_url) in
  wire <$> requests_of now rep (perform_async aself op)
    = wire <$> requests_of now rep (perform self op) ∧
  outcome_map as_requests (result_of now rep (perform_async aself op))
    = result_of now rep (perform self op).
Proof.
  intros self aself. subst self aself.
  unfold requests_of, result_of.
  destruct rep as [r|]; cycle 1.
  { split; destruct op; cbn [perform perform_async]; unfold_client; by run_step. }
  destruct Halike as [H600 Hlow].
  destruct (Z.leb_spec 400 (status r)) as [Hhi|Hlo].
  - assert ((400 <=? status r) && (status r <? 600) = true) as Hsync
      by (apply andb_true_iff; lia).
    assert ((400 <=? status r) = true) as Hasync by lia.
    split; destruct op; cbn [perform perform_async]; unfold_client; run_step;
      by rewrite ?Hsync, ?Hasync.
  - destruct (Hlow Hlo) as [Hctype Hbody].
    assert ((400 <=? status r) = false) as Hasync by lia.
    split; destruct op; cbn [perform perform_async]; unfold_client; run_step;
      rewrite ?Hasync, ?Hctype; run_step;
      destruct (body r) as [| |j]; try done; crunch.
Qed.

Lemma async_matches_sync_witness :
  outcome_map as_requests
    (result_of 0
       (Response {| status := 200; ctype_json := true;
                    body := BodyJson (JDict (<["error" := bad_url]> ∅)) |})
       (perform_async AsyncMCPWebScrapeClient.default (FetchContent (JStr "u") ∅)))
  = result_of 0
      (Response {| status := 200; ctype_json := true;
                   body := BodyJson (JDict (<["error" := bad_url]> ∅)) |})
      (perform MCPWebScrapeClient.default (FetchContent (JStr "u") ∅)).
Proof.
  apply (async_matches_sync "http://localhost:3000" (FetchContent (JStr "u") ∅) 0
           (Response {| status := 200; ctype_json := true;
                        body := BodyJson (JDict (<["error" := bad_url]> ∅)) |})).
  simpl. split; [lia|]. intros _. split; [reflexivity|discriminate].
Defined.

(** ** The ids of a session *)

Section Session.

Context (w : world) (self : MCPWebScrapeClient.t).

Lemma run_perform_state (op : operation) (st : run_state) :
  ∃ rq,
    (run w (perform self op) st).2 =
      {| reads := if is_call op then S (reads st) else reads st;
         sent := sent st ++ [rq] |} ∧
    (if is_call op
     then is_tool_call rq = true ∧
          envelope_id rq = Some (JInt (py_int (clock w (reads st))))
     else is_tool_call rq = false ∧
          (rq_verb rq = POST → envelope_id rq = Some (JInt 1))).
Proof.
  destruct op; cbn [perform is_call];
    unfold MCPWebScrapeClient.fetch_content, MCPWebScrapeClient.extract_content,
      MCPWebScrapeClient.summarize_content, MCPWebScrapeClient.purge_cache;
    rewrite ?run_call_tool_state, ?run_list_tools_state, ?run_list_cache_state,
      ?run_health_check_state;
    eexists; (split; [reflexivity|]); by split.
Qed.

Lemma tool_call_ids_snoc (log : list http_request) (rq : http_request) :
  tool_call_ids (log ++ [rq]) =
  tool_call_ids log ++
    (if is_tool_call rq
     then match envelope_id rq with Some (JInt n) => [n] | _ => [] end
     else []).
Proof.
  unfold tool_call_ids. rewrite omap_app. f_equal. cbn.
  destruct (is_tool_call rq); [|done]. by destruct (envelope_id rq) as [[]|].
Qed.

Lemma run_session_ids (ops : list operation) (st : run_state) :
  tool_call_ids (sent (run_session w self ops st).2) =
  tool_call_ids (sent st) ++
    ((λ n, py_int (clock w n)) <$> seq (reads st) (length (filter is_call ops))).
Proof.
  revert st. induction ops as [|op ops IH]; intros st.
  { cbn. by rewrite app_nil_r. }
  cbn [run_session].
  destruct (run_perform_state op st) as (rq & Hst & Hrq).
  destruct (run w (perform self op) st) as [o st1]. cbn in Hst. subst st1.
  specialize (IH {| reads := if is_call op then S (reads st) else reads st;
                    sent := sent st ++ [rq] |}).
  destruct (run_session w self ops _) as [os st2]. cbn [snd] in *.
  rewrite IH. cbn [sent reads]. rewrite tool_call_ids_snoc.
  rewrite filter_cons. destruct (is_call op); cbn [Is_true] in *.
  - destruct Hrq as [-> ->]. rewrite decide_True by exact I.
    cbn. by rewrite <- app_assoc.
  - destruct Hrq as [-> _]. rewrite decide_False by (intros []).
    by rewrite app_nil_r.
Qed.

Lemma run_session_list_ids (ops : list operation) (st : run_state) :
  Forall (λ rq, is_tool_call rq = false → rq_verb rq = POST →
                envelope_id rq = Some (JInt 1)) (sent st) →
  Forall (λ rq, is_tool_call rq = false → rq_verb rq = POST →
                envelope_id rq = Some (JInt 1)) (sent (run_session w self ops st).2).
Proof.
  revert st. induction ops as [|op ops IH]; intros st Hst; [done|].
  cbn [run_session].
  destruct (run_perform_state op st) as (rq & Hst1 & Hrq).
  destruct (run w (perform self op) st) as [o st1]. cbn in Hst1. subst st1.
  specialize (IH {| reads := if is_call op then S (reads st) else reads st;
                    sent := sent st ++ [rq] |}).
  destruct (run_session w self ops _) as [os st2]. cbn [snd] in *.
  apply IH. cbn [sent]. apply Forall_app. split; [done|].
  apply Forall_singleton. destruct (is_call op).
  - destruct Hrq as [Hrq _]. intros Hno. congruence.
  - destruct Hrq as [_ Hrq]. auto.
Qed.

End Session.

(** C1, counterexample: in a session of [list_tools] then [list_cache],
    two requests that differ carry the same id, 1; and two calls of
    [fetch_content] made within one second carry the same id too. *)
Lemma session_ids_collide :
  let w := {| clock := busy_clock; server := λ _ _, empty_result |} in
  (∃ rq1 rq2,
     session_requests w MCPWebScrapeClient.default [ListTools; ListCache]
       = [rq1; rq2] ∧
     rq1 ≠ rq2 ∧ envelope_id rq1 = envelope_id rq2) ∧
  (∃ rq1 rq2,
     session_requests w MCPWebScrapeClient.default
       [FetchContent (JStr "https://example.com") ∅;
        FetchContent (JStr "https://httpbin.org/html") ∅]
       = [rq1; rq2] ∧
     rq1 ≠ rq2 ∧ envelope_id rq1 = envelope_id rq2).
Proof.
  split; eexists _, _; (split; [by vm_compute|]); split; by vm_compute.
Qed.

(** C1, amended: in every session of the synchronous client the requests
    of [list_tools] and [list_cache] all carry the id 1, and a request
    of [_call_tool] or of one of its wrappers carries the whole seconds
    of the clock at that call; so the ids of the [tools/call] requests
    are pairwise distinct when the successive readings of the clock fall
    in later and later whole seconds. *)
Theorem session_ids (w : world) (self : MCPWebScrapeClient.t) (ops : list operation)
    (Hclock : ∀ n m : nat, (n < m)%nat → py_int (clock w n) < py_int (clock w m)) :
  let log := session_requests w self ops in
  Forall (λ rq, is_tool_call rq = false → rq_verb rq = POST →
                envelope_id rq = Some (JInt 1)) log ∧
  tool_call_ids log =
    ((λ n, py_int (clock w n)) <$> seq 0 (length (filter is_call ops))) ∧
  NoDup (tool_call_ids log).
Proof.
  intros log. subst log. unfold session_requests.
  assert (tool_call_ids (sent (run_session w self ops start).2) =
          ((λ n, py_int (clock w n)) <$> seq 0 (length (filter is_call ops))))
    as Hids by (by rewrite run_session_ids).
  split_and!; [by apply run_session_list_ids|done|].
  rewrite Hids. apply NoDup_fmap_2_strong; [|apply NoDup_seq].
  intros n m _ _ Heq.
  destruct (Nat.lt_trichotomy n m) as [Hlt|[->|Hlt]]; [|done|];
    apply Hclock in Hlt; lia.
Qed.

Lemma ticking_clock_seconds (n : nat) : py_int (ticking_clock n) = Z.of_nat n.
Proof. unfold py_int, ticking_clock. cbn. apply Z.quot_1_r. Qed.

Lemma session_ids_witness :
  NoDup (tool_call_ids
    (session_requests {| clock := ticking_clock; server := λ _ _, empty_result |}
       MCPWebScrapeClient.default
       [FetchContent (JStr "https://example.com") ∅; ListTools;
        PurgeCache (JStr "example.com")])).
Proof.
  apply (session_ids {| clock := ticking_clock; server := λ _ _, empty_result |}).
  intros n m Hnm. simpl. rewrite !ticking_clock_seconds. lia.
Defined.

(** ** Keywords that name a parameter *)

Lemma bind_params_sub params pos kw vs kwargs (name : string) :
  bind_params params pos kw = Some (vs, kwargs) →
  kw !! name = None → kwargs !! name = None.
Proof.
  revert pos kw vs kwargs.
  induction params as [|[p dflt] params IH]; intros pos kw vs kwargs Hbind Hname.
  { destruct pos; by simplify_eq/=. }
  cbn [bind_params] in Hbind.
  destruct pos as [|v pos].
  - destruct (kw !! p) as [x|] eqn:Hp.
    + destruct (bind_params params [] (delete p kw)) as [[vs' kwargs']|] eqn:Hrec;
        simplify_eq/=.
      eapply IH; [done|]. rewrite lookup_delete_None. by right.
    + destruct dflt as [d|]; [|done].
      destruct (bind_params params [] kw) as [[vs' kwargs']|] eqn:Hrec;
        simplify_eq/=.
      by eapply IH.
  - destruct (kw !! p) as [x|] eqn:Hp; [done|].
    destruct (bind_params params pos kw) as [[vs' kwargs']|] eqn:Hrec;
      simplify_eq/=.
    by eapply IH.
Qed.

Lemma bind_params_bound params pos kw vs kwargs :
  bind_params params pos kw = Some (vs, kwargs) →
  length vs = length params ∧ Forall (λ p, kwargs !! p.1 = None) params.
Proof.
  revert pos kw vs kwargs.
  induction params as [|[p dflt] params IH]; intros pos kw vs kwargs Hbind.
  { destruct pos; by simplify_eq/=. }
  cbn [bind_params] in Hbind.
  destruct pos as [|v pos].
  - destruct (kw !! p) as [x|] eqn:Hp.
    + destruct (bind_params params [] (delete p kw)) as [[vs' kwargs']|] eqn:Hrec;
        simplify_eq/=.
      destruct (IH _ _ _ _ Hrec) as [Hlen Hall]. split; [by f_equal|].
      constructor; [|done]. cbn.
      eapply bind_params_sub; [done|]. apply lookup_delete_eq.
    + destruct dflt as [d|]; [|done].
      destruct (bind_params params [] kw) as [[vs' kwargs']|] eqn:Hrec;
        simplify_eq/=.
      destruct (IH _ _ _ _ Hrec) as [Hlen Hall]. split; [by f_equal|].
      constructor; [|done]. cbn. by eapply bind_params_sub.
  - destruct (kw !! p) as [x|] eqn:Hp; [done|].
    destruct (bind_params params pos kw) as [[vs' kwargs']|] eqn:Hrec;
      simplify_eq/=.
    destruct (IH _ _ _ _ Hrec) as [Hlen Hall]. split; [by f_equal|].
    constructor; [|done]. cbn. by eapply bind_params_sub.
Qed.

Lemma bind_method_bound params pos kw vs kwargs :
  bind_method params pos kw = Some (vs, kwargs) →
  length vs = length params ∧ Forall (λ p, kwargs !! p.1 = None) params.
Proof.
  unfold bind_method. destruct (kw !! "self"); [done|]. apply bind_params_bound.
Qed.

(** The dict display of the wrappers would let an entry of [kwargs]
    replace the parameter, had [kwargs] such an entry. *)
Lemma dict_unpack_later_wins (base kwargs : gmap string json) (key : string) (v : json) :
  kwargs !! key = Some v → dict_unpack base kwargs !! key = Some v.
Proof. intros Hv. unfold dict_unpack. by apply lookup_union_Some_l. Qed.

Lemma dict_unpack_base (base kwargs : gmap string json) (key : string) :
  kwargs !! key = None → dict_unpack base kwargs !! key = base !! key.
Proof. intros Hv. unfold dict_unpack. by apply lookup_union_r. Qed.

Lemma sent_arguments_call_tool now rep self name args :
  sent_arguments now rep (MCPWebScrapeClient._call_tool self name args)
  = [Some (JDict args)].
Proof. unfold sent_arguments. by rewrite requests_of_call_tool. Qed.

(** C10, counterexample: [fetch_content("https://a.example",
    url="https://b.example")] is rejected with a [TypeError] and sends
    nothing, so the keyword does not replace the positional [url]; the
    same holds of [summarize_content], and of [extract_content] for
    [url] and for [format]. *)
Lemma url_keyword_is_rejected :
  let a := JStr "https://a.example" in
  let kw : gmap string json := <["url" := JStr "https://b.example"]> ∅ in
  let fmt : gmap string json := <["format" := JStr "markdown"]> ∅ in
  call_fetch_content MCPWebScrapeClient.default [a] kw = Raise TypeError ∧
  sent_arguments 0 empty_result (call_fetch_content MCPWebScrapeClient.default [a] kw)
    = [] ∧
  call_summarize_content MCPWebScrapeClient.default [a] kw = Raise TypeError ∧
  call_extract_content MCPWebScrapeClient.default [a] kw = Raise TypeError ∧
  call_extract_content MCPWebScrapeClient.default [a; JStr "text"] fmt
    = Raise TypeError.
Proof. by vm_compute. Qed.

(** C10, amended: a keyword named [url] (or, for [extract_content],
    [format]) never is one of the extra keyword arguments: given with a
    positional value for the same parameter it makes the call fail with
    a [TypeError], and given alone it is the parameter itself.  In every
    call that is accepted [kwargs] has neither key, and the [arguments]
    sent hold under [url] (and [format]) the value of the parameter. *)
Theorem keyword_cannot_override (self : MCPWebScrapeClient.t) (pos : list json)
    (kw : gmap string json) (now : Q) (rep : reply) :
  (∀ v pos', pos = v :: pos' → is_Some (kw !! "url") →
     call_fetch_content self pos kw = Raise TypeError ∧
     call_summarize_content self pos kw = Raise TypeError ∧
     call_extract_content self pos kw = Raise TypeError) ∧
  (∀ v f pos', pos = v :: f :: pos' → is_Some (kw !! "format") →
     call_extract_content self pos kw = Raise TypeError) ∧
  (∀ vs kwargs, bind_method [("url", None)] pos kw = Some (vs, kwargs) →
     ∃ url args,
       vs = [url] ∧ kwargs !! "url" = None ∧ args !! "url" = Some url ∧
       sent_arguments now rep (call_fetch_content self pos kw) = [Some (JDict args)] ∧
       sent_arguments now rep (call_summarize_content self pos kw)
         = [Some (JDict args)]) ∧
  (∀ vs kwargs,
     bind_method [("url", None); ("format", Some (JStr "text"))] pos kw
       = Some (vs, kwargs) →
     ∃ url format args,
       vs = [url; format] ∧ kwargs !! "url" = None ∧ kwargs !! "format" = None ∧
       args !! "url" = Some url ∧ args !! "format" = Some format ∧
       sent_arguments now rep (call_extract_content self pos kw)
         = [Some (JDict args)]).
Proof.
  split_and!.
  - intros v pos' -> [x Hx].
    unfold call_fetch_content, call_summarize_content, call_extract_content,
      bind_method.
    destruct (kw !! "self"); [done|]. cbn [bind_params]. by rewrite Hx.
  - intros v f pos' -> [x Hx].
    unfold call_extract_content, bind_method.
    destruct (kw !! "self"); [done|]. cbn [bind_params].
    destruct (kw !! "url"); [done|]. by rewrite Hx.
  - intros vs kwargs Hbind.
    destruct (bind_method_bound _ _ _ _ _ Hbind) as [Hlen Hall].
    destruct vs as [|url [|]]; try done.
    apply Forall_cons in Hall as [Hurl _]. cbn in Hurl.
    exists url, (dict_unpack (<["url" := url]> ∅) kwargs).
    split_and!; [done|done| | |].
    + rewrite dict_unpack_base by done. apply lookup_insert_eq.
    + unfold call_fetch_content. rewrite Hbind.
      apply sent_arguments_call_tool.
    + unfold call_summarize_content. rewrite Hbind.
      apply sent_arguments_call_tool.
  - intros vs kwargs Hbind.
    destruct (bind_method_bound _ _ _ _ _ Hbind) as [Hlen Hall].
    destruct vs as [|url [|format [|]]]; try done.
    apply Forall_cons in Hall as [Hurl Hall]. cbn in Hurl.
    apply Forall_cons in Hall as [Hformat _]. cbn in Hformat.
    exists url, format,
      (dict_unpack (<["format" := format]> (<["url" := url]> ∅)) kwargs).
    split_and!; [done|done|done| | |].
    + rewrite dict_unpack_base by done.
      rewrite lookup_insert_ne by done. apply lookup_insert_eq.
    + rewrite dict_unpack_base by done. apply lookup_insert_eq.
    + unfold call_extract_content. rewrite Hbind.
      apply sent_arguments_call_tool.
Qed.

Lemma keyword_cannot_override_witness :
  call_fetch_content MCPWebScrapeClient.default [JStr "https://a.example"]
    (<["url" := JStr "https://b.example"]> ∅) = Raise TypeError.
Proof.
  destruct (keyword_cannot_override MCPWebScrapeClient.default
              [JStr "https://a.example"]
              (<["url" := JStr "https://b.example"]> ∅) 0 empty_result)
    as [Hrejected _].
  destruct (Hrejected (JStr "https://a.example") [] eq_refl) as [Hfetch _].
  - exists (JStr "https://b.example"). reflexivity.
  - exact Hfetch.
Defined.

(** ** Gathering concurrent calls *)

Section Gather.

Context (w : loop_world) (client0 : AsyncMCPWebScrapeClient.t) (urls : list json).

Let client := AsyncMCPWebScrapeClient.__aenter__ client0.

Lemma advance_fetch (url : json) (n : nat) :
  ∃ k,
    advance w (fetch_task client0 url) n
    = (Awaiting (fetch_request client0 (loop_clock w n) url) k, S n) ∧
    ∀ rep m,
      advance w (k rep) m
      = (Finished (result_of (loop_clock w n) rep (fetch_task client0 url)), m).
Proof.
  subst client. unfold fetch_task, fetch_request, call_request, result_of.
  unfold_client. run_step. eexists. split; [reflexivity|].
  intros rep m. crunch.
Qed.

Lemma visits_snoc (i j : nat) (done : list nat) :
  visits i (done ++ [j]) = (visits i done + if decide (j = i) then 1 else 0)%nat.
Proof.
  unfold visits. rewrite filter_app, length_app. f_equal.
  rewrite filter_cons, filter_nil. by case_decide.
Qed.

Lemma loop_inv_start :
  loop_inv w client0 urls [] (NotStarted <$> async_example_tasks client urls, 0%nat).
Proof.
  split; cbn [fst].
  - unfold async_example_tasks. by rewrite !length_fmap.
  - intros i url Hurl. exists (NotStarted (fetch_task client0 url)). split; [|done].
    unfold async_example_tasks. rewrite !list_lookup_fmap, Hurl. done.
Qed.

Lemma loop_inv_step (done : list nat) (st : list task * nat) (j : nat) :
  loop_inv w client0 urls done st →
  loop_inv w client0 urls (done ++ [j]) (loop_step w st j).
Proof.
  intros [Hlen Hslots]. destruct st as [slots n]. cbn [fst snd] in *.
  unfold loop_step. cbn [fst snd].
  destruct (urls !! j) as [urlj|] eqn:Hj; cycle 1.
  { (* no task at this position *)
    apply lookup_ge_None in Hj.
    rewrite (proj2 (lookup_ge_None slots j)) by lia.
    split; [done|]. intros i url Hurl.
    destruct (Hslots i url Hurl) as (t & Ht & Hok). exists t. split; [done|].
    rewrite visits_snoc. apply lookup_lt_Some in Hurl.
    rewrite decide_False by lia. by rewrite Nat.add_0_r. }
  assert (j < length slots)%nat as Hjlt
    by (rewrite Hlen; by eapply lookup_lt_Some).
  assert (∀ t' n',
    slot_ok w client0 j urlj (S (visits j done)) t' →
    loop_inv w client0 urls (done ++ [j]) (<[j := t']> slots, n')) as Hupdate.
  { intros t' n' Hok'. split; cbn [fst].
    - by rewrite length_insert.
    - intros i url Hurl. rewrite visits_snoc.
      destruct (decide (j = i)) as [->|Hne].
      + exists t'. rewrite list_lookup_insert_eq by done. split; [done|].
        rewrite Hj in Hurl. injection Hurl as <-. by rewrite Nat.add_1_r.
      + destruct (Hslots i url Hurl) as (t & Ht & Hok). exists t.
        rewrite list_lookup_insert_ne by done. split; [done|].
        by rewrite Nat.add_0_r. }
  destruct (Hslots j urlj Hj) as (t & Ht & Hok). rewrite Ht.
  destruct (visits j done) as [|[|c]] eqn:Hc; cbn [slot_ok] in Hok.
  - subst t. destruct (advance_fetch urlj n) as (k & -> & Hk).
    apply Hupdate. cbn [slot_ok]. by exists n, k.
  - destruct Hok as (n0 & k & -> & Hk). rewrite Hk.
    apply Hupdate. cbn [slot_ok]. by exists n0.
  - destruct Hok as (n0 & ->).
    split; [done|]. cbn [fst]. intros i url Hurl. rewrite visits_snoc.
    destruct (decide (j = i)) as [->|Hne].
    + eexists. split; [done|]. rewrite Hj in Hurl. injection Hurl as <-.
      rewrite Hc, Nat.add_1_r. cbn [slot_ok]. by exists n0.
    + destruct (Hslots i url Hurl) as (t & Hti & Hoki). exists t.
      split; [done|]. by rewrite Nat.add_0_r.
Qed.

Lemma loop_inv_run (schedule done : list nat) (st : list task * nat) :
  loop_inv w client0 urls done st →
  loop_inv w client0 urls (done ++ schedule) (loop_run w schedule st).
Proof.
  revert done st. induction schedule as [|j schedule IH]; intros done st Hinv.
  { by rewrite app_nil_r. }
  cbn [loop_run foldl].
  replace (done ++ j :: schedule) with ((done ++ [j]) ++ schedule)
    by (by rewrite <- app_assoc).
  apply IH. by apply loop_inv_step.
Qed.

End Gather.

(** C9: the calls [fetch_content(url)] for [N] urls are gathered with
    [return_exceptions=True].  Whatever the order in which the loop runs
    the tasks, once each has been started and resumed the result is a
    list of length [N] whose entry at a position is what the call
    submitted at that position yields on its own response: the exception
    when that call fails, its value when it succeeds, whatever becomes
    of the other calls and however many of them fail. *)
Theorem gather_reports_each (w : loop_world) (client0 : AsyncMCPWebScrapeClient.t)
    (urls : list json) (schedule : list nat)
    (Hfair : ∀ i, (i < length urls)%nat → (2 ≤ visits i schedule)%nat) :
  let client := AsyncMCPWebScrapeClient.__aenter__ client0 in
  ∃ results,
    gather w schedule (async_example_tasks client urls) = Some results ∧
    length results = length urls ∧
    ∀ i url, urls !! i = Some url →
      ∃ now,
        results !! i =
          Some (result_of now (network w i (fetch_request client0 now url))
                  (AsyncMCPWebScrapeClient.fetch_content client url ∅)).
Proof.
  intros client. unfold gather.
  pose proof (loop_inv_run w client0 urls schedule [] _ (loop_inv_start w client0 urls))
    as [Hlen Hslots].
  rewrite app_nil_l in Hslots.
  set (final := (loop_run w schedule
                   (NotStarted <$> async_example_tasks client urls, 0%nat)).1) in *.
  assert (∀ i url, urls !! i = Some url →
            ∃ now, final !! i = Some (Finished
              (result_of now (network w i (fetch_request client0 now url))
                 (AsyncMCPWebScrapeClient.fetch_content client url ∅)))) as Hdone.
  { intros i url Hurl. destruct (Hslots i url Hurl) as (t & Ht & Hok).
    pose proof (Hfair i (lookup_lt_Some _ _ _ Hurl)) as Hv.
    destruct (visits i schedule) as [|[|c]]; [lia..|].
    destruct Hok as (n & ->). by exists (loop_clock w n). }
  destruct (mapM task_result final) as [results|] eqn:Hmap; cycle 1.
  { exfalso. apply eq_None_not_Some in Hmap. apply Hmap, mapM_is_Some.
    apply Forall_lookup. intros i t Ht.
    assert (i < length urls)%nat as Hi by (rewrite <- Hlen; by eapply lookup_lt_Some).
    apply lookup_lt_is_Some in Hi as [url Hurl].
    destruct (Hdone i url Hurl) as (now & Hfin). rewrite Ht in Hfin.
    injection Hfin as ->. by eexists. }
  exists results. apply mapM_Some in Hmap.
  split; [done|]. split.
  { by rewrite <- (Forall2_length _ _ _ Hmap). }
  intros i url Hurl. destruct (Hdone i url Hurl) as (now & Hfin). exists now.
  destruct (Forall2_lookup_l _ _ _ _ _ Hmap Hfin) as (o & Ho & Hres).
  cbn in Hres. by injection Hres as <-.
Qed.

Lemma gather_reports_each_witness :
  ∃ results,
    gather partial_failure [0; 1; 2; 2; 0; 1]%nat
      (async_example_tasks AsyncMCPWebScrapeClient.default example_urls)
      = Some results ∧
    length results = 3%nat.
Proof.
  destruct (gather_reports_each partial_failure
              (AsyncMCPWebScrapeClient.__init__ "http://localhost:3000")
              example_urls [0; 1; 2; 2; 0; 1]%nat)
    as (results & Hgather & Hlength & _).
  - intros i Hi. destruct i as [|[|[|i]]]; vm_compute; vm_compute in Hi; lia.
  - exists results. split; [exact Hgather|exact Hlength].
Defined.

(** One failure among three calls: the second call gets a 500. *)
Example gather_partial_failure :
  gather partial_failure [0; 1; 2; 2; 0; 1]%nat
    (async_example_tasks AsyncMCPWebScrapeClient.default example_urls)
  = Some [Returned (JDict ∅);
          Raised (Aiohttp_ClientResponseError 500 "http://localhost:3000/message");
          Returned (JDict ∅)].
Proof. by vm_compute. Qed.

(** * Further properties of the clients *)

(** ** The base URL *)

Lemma append_cons (c : ascii) (s t : string) :
  String.append (String c s) t = String c (String.append s t).
Proof. reflexivity. Qed.

Lemma rstrip_slash_decompose (s : string) :
  ∃ n, s = String.append (rstrip_slash s) (slashes n).
Proof.
  induction s as [|c rest [n IH]]; [by exists 0%nat|].
  cbn [rstrip_slash]. destruct (rstrip_slash rest) as [|c' r] eqn:Hr.
  - change (String.append "" (slashes n)) with (slashes n) in IH.
    destruct (Ascii.eqb_spec c "/") as [->|Hc].
    + exists (S n). cbn [slashes]. by rewrite IH at 1.
    + exists n. rewrite append_cons. by rewrite IH at 1.
  - exists n. rewrite append_cons. by rewrite IH at 1.
Qed.

Lemma rstrip_slash_last (s : string) : last_char (rstrip_slash s) ≠ Some "/"%char.
Proof.
  induction s as [|c rest IH]; [done|].
  cbn [rstrip_slash]. destruct (rstrip_slash rest) as [|c' r] eqn:Hr.
  - destruct (Ascii.eqb_spec c "/") as [->|Hc]; [done|].
    cbn. congruence.
  - exact IH.
Qed.

Lemma rstrip_slash_keeps (s : string) :
  last_char s ≠ Some "/"%char → rstrip_slash s = s.
Proof.
  induction s as [|c rest IH]; [done|]. intros Hlast.
  cbn [rstrip_slash]. destruct rest as [|c' rest'].
  - cbn. destruct (Ascii.eqb_spec c "/") as [->|Hc]; [done|done].
  - rewrite IH by exact Hlast. done.
Qed.

(** X1: the base URL that a client keeps is the URL it was given without
    its trailing slashes, all of them and nothing else: it does not end
    with a slash, the given URL is the base URL followed by slashes only,
    and a URL that does not end with a slash is kept as it is.  Both
    classes strip the same way. *)
Theorem base_url_stripped (url : string) :
  let self := MCPWebScrapeClient.__init__ url in
  AsyncMCPWebScrapeClient.base_url (AsyncMCPWebScrapeClient.__init__ url)
    = MCPWebScrapeClient.base_url self ∧
  last_char (MCPWebScrapeClient.base_url self) ≠ Some "/"%char ∧
  (∃ n, url = String.append (MCPWebScrapeClient.base_url self) (slashes n)) ∧
  (last_char url ≠ Some "/"%char → MCPWebScrapeClient.base_url self = url) ∧
  MCPWebScrapeClient.base_url
    (MCPWebScrapeClient.__init__ (MCPWebScrapeClient.base_url self))
    = MCPWebScrapeClient.base_url self.
Proof.
  cbn. split_and!.
  - done.
  - apply rstrip_slash_last.
  - apply rstrip_slash_decompose.
  - apply rstrip_slash_keeps.
  - apply rstrip_slash_keeps, rstrip_slash_last.
Qed.

Lemma base_url_stripped_witness :
  MCPWebScrapeClient.base_url (MCPWebScrapeClient.__init__ "http://localhost:3000")
  = "http://localhost:3000".
Proof.
  destruct (base_url_stripped "http://localhost:3000") as (_ & _ & _ & Hkeep & _).
  apply Hkeep. vm_compute. discriminate.
Defined.

(** ** One request, and no second try *)


(** ** A failed connection *)

(** X3: when the connection fails, every operation raises the connection
    error of its library, [requests] for the synchronous client and
    [aiohttp] for the asynchronous one: an error of the transport, not
    an error of the tool. *)
Theorem connection_failure_raises (self : MCPWebScrapeClient.t)
    (aself : AsyncMCPWebScrapeClient.t) (op : operation) (now : Q) :
  result_of now ConnectionFailed (perform self op) = Raised Requests_ConnectionError ∧
  result_of now ConnectionFailed
    (perform_async (AsyncMCPWebScrapeClient.__aenter__ aself) op)
    = Raised Aiohttp_ClientConnectionError ∧
  kind_of Requests_ConnectionError = TransportError ∧
  kind_of Aiohttp_ClientConnectionError = TransportError.
Proof.
  split_and!; [| |done|done];
    destruct op; unfold result_of; cbn [perform perform_async]; unfold_client;
    by run_step.
Qed.

(** ** The asynchronous client before its session is open *)

(** X4: a method of an [AsyncMCPWebScrapeClient] that has not been
    entered ([session] is still [None]) raises an [AttributeError] and
    sends nothing. *)
Theorem async_needs_session (base_url : string) (op : operation) (now : Q)
    (rep : reply) :
  let aself := AsyncMCPWebScrapeClient.__init__ base_url in
  result_of now rep (perform_async aself op) = Raised AttributeError ∧
  requests_of now rep (perform_async aself op) = [].
Proof.
  split; destruct op; unfold result_of, requests_of; cbn [perform_async];
    unfold_client; by run_step.
Qed.

(** ** [health_check] *)

(** X5: on a response whose status is not a 4xx or a 5xx, [health_check]
    returns the decoded JSON body as it is, whatever it holds (an
    [error] field too), and raises a [JSONDecodeError] when the body is
    not JSON. *)
Theorem health_check_returns_body (self : MCPWebScrapeClient.t) (now : Q)
    (r : http_response) (Hstatus : ¬ (400 ≤ status r < 600)) :
  (∀ j, body r = BodyJson j →
     result_of now (Response r) (MCPWebScrapeClient.health_check self) = Returned j) ∧
  ((∀ j, body r ≠ BodyJson j) →
     result_of now (Response r) (MCPWebScrapeClient.health_check self)
       = Raised Requests_JSONDecodeError).
Proof.
  assert ((400 <=? status r) && (status r <? 600) = false) as Hok.
  { apply andb_false_iff. destruct (Z.leb_spec 400 (status r)); [|by left].
    right. apply Z.ltb_ge. lia. }
  unfold result_of. unfold_client. split.
  - intros j Hj. run_step. rewrite Hok. run_step. by rewrite Hj.
  - intros Hj. run_step. rewrite Hok. run_step.
    destruct (body r) as [| |j]; [done..|]. by destruct (Hj j).
Qed.

Lemma health_check_returns_body_witness :
  result_of 0
    (Response {| status := 200; ctype_json := true;
                 body := BodyJson (JDict (<["error" := bad_url]> ∅)) |})
    (MCPWebScrapeClient.health_check MCPWebScrapeClient.default)
  = Returned (JDict (<["error" := bad_url]> ∅)).
Proof.
  destruct (health_check_returns_body MCPWebScrapeClient.default 0
              {| status := 200; ctype_json := true;
                 body := BodyJson (JDict (<["error" := bad_url]> ∅)) |})
    as [Hjson _].
  - simpl. lia.
  - apply Hjson. reflexivity.
Defined.

(** ** Bodies that are not what the client expects *)

(** X6: when the status is not a 4xx or a 5xx and the body is not JSON
    (blank, or text that does not decode), every operation of the
    synchronous client raises the [JSONDecodeError] of [requests]. *)
Theorem undecodable_body_raises (self : MCPWebScrapeClient.t) (op : operation)
    (now : Q) (r : http_response)
    (Hstatus : ¬ (400 ≤ status r < 600)) (Hbody : ∀ j, body r ≠ BodyJson j) :
  result_of now (Response r) (perform self op) = Raised Requests_JSONDecodeError.
Proof.
  assert ((400 <=? status r) && (status r <? 600) = false) as Hok.
  { apply andb_false_iff. destruct (Z.leb_spec 400 (status r)); [|by left].
    right. apply Z.ltb_ge. lia. }
  destruct op; unfold result_of; cbn [perform]; unfold_client;
    run_step; rewrite Hok; run_step;
    (destruct (body r) as [| |j]; [done..|]); by destruct (Hbody j).
Qed.

Lemma undecodable_body_raises_witness :
  result_of 0
    (Response {| status := 200; ctype_json := true; body := BodyBlank |})
    (perform MCPWebScrapeClient.default ListTools)
  = Raised Requests_JSONDecodeError.
Proof.
  apply (undecodable_body_raises MCPWebScrapeClient.default ListTools 0
           {| status := 200; ctype_json := true; body := BodyBlank |}).
  - simpl. lia.
  - intros j. simpl. discriminate.
Defined.

(** X7: when the status is not a 4xx or a 5xx and the body is JSON but
    not an object, no operation that posts an envelope returns:
    [list_tools] and [list_cache] raise an [AttributeError], and
    [_call_tool] and its wrappers a [TypeError] or an [AttributeError],
    which is neither an error of the transport nor the error of a
    tool. *)
Theorem non_object_body_raises (self : MCPWebScrapeClient.t) (op : operation)
    (now : Q) (r : http_response) (j : json)
    (Hop : op ≠ HealthCheck)
    (Hstatus : ¬ (400 ≤ status r < 600)) (Hbody : body r = BodyJson j)
    (Hj : is_object j = false) :
  (is_call op = false →
     result_of now (Response r) (perform self op) = Raised AttributeError) ∧
  (is_call op = true →
     result_of now (Response r) (perform self op) = Raised TypeError ∨
     result_of now (Response r) (perform self op) = Raised AttributeError).
Proof.
  assert ((400 <=? status r) && (status r <? 600) = false) as Hok.
  { apply andb_false_iff. destruct (Z.leb_spec 400 (status r)); [|by left].
    right. apply Z.ltb_ge. lia. }
  split; intros Hcall; destruct op; try done; unfold result_of; cbn [perform];
    unfold_client; run_step; rewrite Hok; run_step; rewrite Hbody; run_step;
    destruct j; try done; run_step; try (by left); try (by right);
    case_match; run_step; by eauto.
Qed.

Lemma non_object_body_raises_witness :
  result_of 0
    (Response {| status := 200; ctype_json := true; body := BodyJson JNull |})
    (perform MCPWebScrapeClient.default ListCache)
  = Raised AttributeError.
Proof.
  destruct (non_object_body_raises MCPWebScrapeClient.default ListCache 0
              {| status := 200; ctype_json := true; body := BodyJson JNull |} JNull)
    as [Hlist _].
  - discriminate.
  - simpl. lia.
  - reflexivity.
  - reflexivity.
  - apply Hlist. reflexivity.
Defined.

(** X8: on a 2xx response whose body is an object with a [result] that
    is not an object ([null], a list, a string), [list_tools] and
    [list_cache] raise an [AttributeError] instead of returning the
    empty list. *)
Theorem list_needs_object_result (self : MCPWebScrapeClient.t) (now : Q)
    (r : http_response) (d : gmap string json) (v : json)
    (Hstatus : is_2xx (status r)) (Hbody : body r = BodyJson (JDict d))
    (Hresult : d !! "result" = Some v) (Hv : is_object v = false) :
  result_of now (Response r) (MCPWebScrapeClient.list_tools self)
    = Raised AttributeError ∧
  result_of now (Response r) (MCPWebScrapeClient.list_cache self)
    = Raised AttributeError.
Proof.
  unfold is_2xx in Hstatus.
  assert ((400 <=? status r) && (status r <? 600) = false) as Hok
    by (apply andb_false_iff; left; lia).
  split; unfold result_of; unfold_client; run_step; rewrite Hok; run_step;
    rewrite Hbody; run_step; rewrite Hresult; by destruct v.
Qed.

Lemma list_needs_object_result_witness :
  result_of 0
    (Response {| status := 200; ctype_json := true;
                 body := BodyJson (JDict (<["result" := JNull]> ∅)) |})
    (MCPWebScrapeClient.list_tools MCPWebScrapeClient.default)
  = Raised AttributeError.
Proof.
  destruct (list_needs_object_result MCPWebScrapeClient.default 0
              {| status := 200; ctype_json := true;
                 body := BodyJson (JDict (<["result" := JNull]> ∅)) |}
              (<["result" := JNull]> ∅) JNull)
    as [Htools _].
  - unfold is_2xx. simpl. lia.
  - reflexivity.
  - reflexivity.
  - reflexivity.
  - exact Htools.
Defined.

(** ** The wrappers *)

Lemma unpack_url (url : json) (kw : gmap string json) :
  kw !! "url" = None →
  dict_unpack (<["url" := url]> ∅) kw = <["url" := url]> kw.
Proof.
  intros Hurl. unfold dict_unpack. apply map_eq. intros k.
  rewrite lookup_union. destruct (decide (k = "url")) as [->|Hk].
  - rewrite Hurl, !lookup_insert_eq. done.
  - rewrite !lookup_insert_ne, lookup_empty by done. by destruct (kw !! k).
Qed.

Lemma unpack_url_format (url format : json) (kw : gmap string json) :
  kw !! "url" = None → kw !! "format" = None →
  dict_unpack (<["format" := format]> (<["url" := url]> ∅)) kw
  = <["url" := url]> (<["format" := format]> kw).
Proof.
  intros Hurl Hformat. unfold dict_unpack. apply map_eq. intros k.
  rewrite lookup_union. destruct (decide (k = "url")) as [->|Hk].
  - rewrite Hurl, lookup_insert_eq, lookup_insert_ne, lookup_insert_eq by done. done.
  - destruct (decide (k = "format")) as [->|Hk'].
    + rewrite Hformat, lookup_insert_eq, lookup_insert_ne, lookup_insert_eq by done.
      done.
    + rewrite !lookup_insert_ne, lookup_empty by done. by destruct (kw !! k).
Qed.

(** X9: in a call of a wrapper with extra keywords (none of them named
    [self], [url] or [format]) the tool is [fetch], [extract] or
    [summarize] and the [arguments] sent are the extra keywords, each
    under its own name with its own value, together with [url] and, for
    [extract_content], [format]: the format given, or ["text"] when none
    is.  A [url] given by keyword is sent as the one given by
    position. *)
Theorem wrappers_send_keywords (self : MCPWebScrapeClient.t) (url format : json)
    (kw : gmap string json) (now : Q) (rep : reply)
    (Hself : kw !! "self" = None) (Hurl : kw !! "url" = None)
    (Hformat : kw !! "format" = None) :
  let post name args :=
    [call_request (String.append (MCPWebScrapeClient.base_url self) "/message")
       (MCPWebScrapeClient.session self) now name args] in
  requests_of now rep (call_fetch_content self [url] kw)
    = post "fetch" (<["url" := url]> kw) ∧
  requests_of now rep (call_fetch_content self [] (<["url" := url]> kw))
    = post "fetch" (<["url" := url]> kw) ∧
  requests_of now rep (call_summarize_content self [url] kw)
    = post "summarize" (<["url" := url]> kw) ∧
  requests_of now rep (call_extract_content self [url] kw)
    = post "extract" (<["url" := url]> (<["format" := JStr "text"]> kw)) ∧
  requests_of now rep (call_extract_content self [url; format] kw)
    = post "extract" (<["url" := url]> (<["format" := format]> kw)) ∧
  requests_of now rep (call_extract_content self [url] (<["format" := format]> kw))
    = post "extract" (<["url" := url]> (<["format" := format]> kw)).
Proof.
  intros post. subst post.
  assert (bind_method [("url", None)] [url] kw = Some ([url], kw)) as Hpos.
  { unfold bind_method. rewrite Hself. cbn [bind_params]. by rewrite Hurl. }
  assert (bind_method [("url", None)] [] (<["url" := url]> kw) = Some ([url], kw))
    as Hkey.
  { unfold bind_method. rewrite lookup_insert_ne, Hself by done.
    cbn [bind_params]. rewrite lookup_insert_eq, delete_insert_eq, delete_id by done.
    done. }
  assert (bind_method [("url", None); ("format", Some (JStr "text"))] [url] kw
          = Some ([url; JStr "text"], kw)) as Hdefault.
  { unfold bind_method. rewrite Hself. cbn [bind_params]. by rewrite Hurl, Hformat. }
  assert (bind_method [("url", None); ("format", Some (JStr "text"))] [url; format] kw
          = Some ([url; format], kw)) as Hboth.
  { unfold bind_method. rewrite Hself. cbn [bind_params]. by rewrite Hurl, Hformat. }
  assert (bind_method [("url", None); ("format", Some (JStr "text"))] [url]
            (<["format" := format]> kw)
          = Some ([url; format], kw)) as Hfmt.
  { unfold bind_method. rewrite lookup_insert_ne, Hself by done.
    cbn [bind_params]. rewrite lookup_insert_ne, Hurl by done.
    rewrite lookup_insert_eq, delete_insert_eq, delete_id by done. done. }
  unfold call_fetch_content, call_summarize_content, call_extract_content.
  rewrite Hpos, Hkey, Hdefault, Hboth, Hfmt.
  unfold MCPWebScrapeClient.fetch_content, MCPWebScrapeClient.summarize_content,
    MCPWebScrapeClient.extract_content.
  rewrite !requests_of_call_tool, !unpack_url, !unpack_url_format by done.
  done.
Qed.

Lemma wrappers_send_keywords_witness :
  requests_of 0 empty_result
    (call_extract_content MCPWebScrapeClient.default [JStr "https://example.com"]
       (<["include_links" := JBool true]> ∅))
  = [call_request "http://localhost:3000/message"
       (MCPWebScrapeClient.session MCPWebScrapeClient.default) 0 "extract"
       (<["url" := JStr "https://example.com"]>
          (<["format" := JStr "text"]> (<["include_links" := JBool true]> ∅)))].
Proof.
  destruct (wrappers_send_keywords MCPWebScrapeClient.default
              (JStr "https://example.com") (JStr "text")
              (<["include_links" := JBool true]> ∅) 0 empty_result)
    as (_ & _ & _ & Hextract & _).
  - reflexivity.
  - reflexivity.
  - reflexivity.
  - exact Hextract.
Defined.

(** ** The envelopes of the listings *)

(** X10: [list_tools] and [list_cache] each post one request to
    [base_url/message] whose envelope has [jsonrpc] "2.0", the [id] 1,
    the [method] "tools/list", respectively "resources/list", and no
    [params]. *)
Theorem list_envelopes (w : world) (st : run_state) (self : MCPWebScrapeClient.t) :
  ∃ tools resources,
    sent (run w (MCPWebScrapeClient.list_tools self) st).2 = sent st ++ [tools] ∧
    sent (run w (MCPWebScrapeClient.list_cache self) st).2 = sent st ++ [resources] ∧
    wire tools
      = (POST, String.append (MCPWebScrapeClient.base_url self) "/message",
         Some (list_payload "tools/list")) ∧
    wire resources
      = (POST, String.append (MCPWebScrapeClient.base_url self) "/message",
         Some (list_payload "resources/list")) ∧
    (∀ rq, rq = tools ∨ rq = resources →
       envelope_field "jsonrpc" rq = Some (JStr "2.0") ∧
       envelope_id rq = Some (JInt 1) ∧
       envelope_field "params" rq = None) ∧
    envelope_field "method" tools = Some (JStr "tools/list") ∧
    envelope_field "method" resources = Some (JStr "resources/list").
Proof.
  rewrite run_list_tools_state, run_list_cache_state. eexists _, _.
  split_and!; [reflexivity..| |done|done].
  by intros rq [->| ->].
Qed.

(** * The example scripts *)

Lemma exec_bind {A B : Type} (w : world) (s : script A) (f : A → script B)
    (st : run_state) :
  exec w (s ≫= f) st =
  match exec w s st with
  | (inl a, st1, t1) =>
      let '(r, st2, t2) := exec w (f a) st1 in (r, st2, t1 ++ t2)
  | (inr e, st1, t1) => (inr e, st1, t1)
  end.
Proof.
  revert st. induction s as [a|e|line k IH|n k IH|k IH|p k IH]; intros st;
    cbn [mbind script_mbind script_bind exec] in *.
  - by destruct (exec w (f a) st) as [[r st2] t2].
  - done.
  - rewrite IH. destruct (exec w k st) as [[[a|e] st1] t1]; [|done].
    by destruct (exec w (f a) st1) as [[r st2] t2].
  - rewrite IH. destruct (exec w k st) as [[[a|e] st1] t1]; [|done].
    by destruct (exec w (f a) st1) as [[r st2] t2].
  - rewrite IH. destruct (exec w k st) as [[[a|e] st1] t1]; [|done].
    by destruct (exec w (f a) st1) as [[r st2] t2].
  - destruct (run w p st) as [o st0]. rewrite IH.
    destruct (exec w (k o) st0) as [[[a|e] st1] t1]; [|done].
    destruct (exec w (f a) st1) as [[r st2] t2]. by rewrite app_assoc.
Qed.

Lemma exec_try_except {A : Type} (w : world) (s : script A)
    (handler : raised → script A) (st : run_state) :
  exec w (try_except s handler) st =
  match exec w s st with
  | (inl a, st1, t1) => (inl a, st1, t1)
  | (inr e, st1, t1) =>
      let '(r, st2, t2) := exec w (handler e) st1 in (r, st2, t1 ++ t2)
  end.
Proof.
  revert st. induction s as [a|e|line k IH|n k IH|k IH|p k IH]; intros st;
    cbn [try_except exec] in *.
  - done.
  - by destruct (exec w (handler e) st) as [[r st2] t2].
  - rewrite IH. destruct (exec w k st) as [[[a|e] st1] t1]; [done|].
    by destruct (exec w (handler e) st1) as [[r st2] t2].
  - rewrite IH. destruct (exec w k st) as [[[a|e] st1] t1]; [done|].
    by destruct (exec w (handler e) st1) as [[r st2] t2].
  - rewrite IH. destruct (exec w k st) as [[[a|e] st1] t1]; [done|].
    by destruct (exec w (handler e) st1) as [[r st2] t2].
  - destruct (run w p st) as [o st0]. rewrite IH.
    destruct (exec w (k o) st0) as [[[a|e] st1] t1]; [done|].
    destruct (exec w (handler e) st1) as [[r st2] t2]. by rewrite app_assoc.
Qed.

Lemma exec_try_finally {A : Type} (w : world) (s : script A) (final : script unit)
    (st : run_state) :
  exec w (try_finally s final) st =
  let '(r, st1, t1) := exec w s st in
  match exec w final st1 with
  | (inl _, st2, t2) => (r, st2, t1 ++ t2)
  | (inr e, st2, t2) => (inr e, st2, t1 ++ t2)
  end.
Proof.
  revert st. induction s as [a|e|line k IH|n k IH|k IH|p k IH]; intros st;
    cbn [try_finally exec] in *.
  - rewrite exec_bind. by destruct (exec w final st) as [[[[]|e] st2] t2];
      cbn; rewrite ?app_nil_r.
  - rewrite exec_bind. by destruct (exec w final st) as [[[[]|e'] st2] t2];
      cbn; rewrite ?app_nil_r.
  - rewrite IH. destruct (exec w k st) as [[r st1] t1].
    by destruct (exec w final st1) as [[[[]|e] st2] t2].
  - rewrite IH. destruct (exec w k st) as [[r st1] t1].
    by destruct (exec w final st1) as [[[[]|e] st2] t2].
  - rewrite IH. destruct (exec w k st) as [[r st1] t1].
    by destruct (exec w final st1) as [[[[]|e] st2] t2].
  - destruct (run w p st) as [o st0]. rewrite IH.
    destruct (exec w (k o) st0) as [[r st1] t1].
    by destruct (exec w final st1) as [[[[]|e] st2] t2]; rewrite app_assoc.
Qed.

Lemma batch_call_args (url : json) :
  bind_method [("url", None); ("format", Some (JStr "text"))] [url] batch_keywords
  = Some ([url; JStr "markdown"],
          <["include_links" := JBool true]> (<["include_images" := JBool false]> ∅)) ∧
  dict_unpack (<["format" := JStr "markdown"]> (<["url" := url]> ∅))
    (<["include_links" := JBool true]> (<["include_images" := JBool false]> ∅))
  = <["url" := url]> batch_keywords.
Proof. split; reflexivity. Qed.

Lemma exec_call (w : world) (p : prog json) (st : run_state) :
  exec w (call p) st =
  (match (run w p st).1 with
   | Returned v => inl v
   | Raised e => inr (Exn e)
   end,
   (run w p st).2,
   Sent <$> drop (length (sent st)) (sent (run w p st).2)).
Proof.
  unfold call. cbn [exec]. destruct (run w p st) as [[v|e] st1]; cbn;
    by rewrite app_nil_r.
Qed.

Lemma run_py_get (w : world) (v : json) (key : string) (dflt : json)
    (st : run_state) :
  run w (py_get v key dflt) st =
  (match v with
   | JDict d => Returned (match d !! key with Some x => x | None => dflt end)
   | _ => Raised AttributeError
   end, st).
Proof. by destruct v. Qed.

Lemma sends_app (t1 t2 : list event) : sends (t1 ++ t2) = sends t1 ++ sends t2.
Proof. apply omap_app. Qed.

Lemma sleeps_app (t1 t2 : list event) : sleeps (t1 ++ t2) = sleeps t1 ++ sleeps t2.
Proof. apply omap_app. Qed.

Lemma closings_app (t1 t2 : list event) :
  closings (t1 ++ t2) = (closings t1 + closings t2)%nat.
Proof. unfold closings. by rewrite omap_app, length_app. Qed.

Section Batch.

Context (w : world) (client : MCPWebScrapeClient.t).

Lemma run_batch_call (url : json) (st : run_state) :
  (run w (call_extract_content client [url] batch_keywords) st).2 =
  {| reads := S (reads st);
     sent := sent st ++ [batch_request client (clock w (reads st)) url] |}.
Proof.
  unfold call_extract_content. destruct (batch_call_args url) as [-> Hargs].
  unfold MCPWebScrapeClient.extract_content. rewrite Hargs.
  apply run_call_tool_state.
Qed.

(** The body of the [try] in a turn of the loop. *)
Lemma batch_try_exec (url : json) (results : list batch_entry) (st : run_state) :
  let rq := batch_request client (clock w (reads st)) url in
  let st1 := {| reads := S (reads st); sent := sent st ++ [rq] |} in
  let body :=
    result ← call (call_extract_content client [url] batch_keywords);
    content_list ← call (py_get result "content" (JList [JStr ""]));
    content ← py_first content_list;
    title ← call (py_get result "title" (JStr "Unknown"));
    content_length ← py_len content;
    Print [PLit "  ✓ Success: "; PVal (JInt content_length); PLit " characters"]
      (Done (results ++ [Succeeded url title content_length])) in
  (∃ title len line,
     exec w body st
     = (inl (results ++ [Succeeded url title len]), st1, [Sent rq; Printed line])) ∨
  (∃ e, exec w body st = (inr e, st1, [Sent rq])).
Proof.
  intros rq st1 body. subst body.
  rewrite exec_bind, exec_call, run_batch_call.
  cbn [sent]. rewrite drop_app_length. fold rq st1.
  destruct (run w _ st).1 as [result|e]; [|right; by eexists].
  rewrite exec_bind, exec_call, run_py_get. cbn [fst snd].
  rewrite drop_all. cbn [fmap list_fmap].
  destruct result as [| | | | | |d]; try (right; by eexists).
  set (content_list := match d !! "content" with Some x => x | None => _ end).
  rewrite exec_bind.
  assert (∀ content,
    (∃ title len line,
       (let '(r, st2, t2) :=
          exec w (call (py_get (JDict d) "title" (JStr "Unknown")) ≫= λ title,
                  py_len content ≫= λ content_length,
                  Print [PLit "  ✓ Success: "; PVal (JInt content_length);
                         PLit " characters"]
                    (Done (results ++ [Succeeded url title content_length]))) st1
        in (r, st2, [] ++ t2))
       = (inl (results ++ [Succeeded url title len]), st1, [Printed line])) ∨
    (∃ e,
       (let '(r, st2, t2) :=
          exec w (call (py_get (JDict d) "title" (JStr "Unknown")) ≫= λ title,
                  py_len content ≫= λ content_length,
                  Print [PLit "  ✓ Success: "; PVal (JInt content_length);
                         PLit " characters"]
                    (Done (results ++ [Succeeded url title content_length]))) st1
        in (r, st2, [] ++ t2))
       = (inr e, st1, []))) as Hrest.
  { intros content. rewrite exec_bind, exec_call, run_py_get. cbn [fst snd].
    rewrite drop_all. cbn [fmap list_fmap].
    destruct content; cbn; try (right; by eexists); left; by eexists _, _, _. }
  destruct content_list as [| | | |s|l|d'];
    try (cbn; right; by eexists).
  - destruct s as [|c s]; [cbn; right; by eexists|].
    cbn [py_first exec].
    destruct (Hrest (JStr (String c ""))) as [(t & n & l & Heq)|(e & Heq)].
    + left. exists t, n, l. destruct (exec w _ st1) as [[r st2] t2].
      cbn in Heq. by injection Heq as -> -> ->.
    + right. exists e. destruct (exec w _ st1) as [[r st2] t2].
      cbn in Heq. by injection Heq as -> -> ->.
  - destruct l as [|x l]; [cbn; right; by eexists|].
    cbn [py_first exec].
    destruct (Hrest x) as [(t & n & l' & Heq)|(e & Heq)].
    + left. exists t, n, l'. destruct (exec w _ st1) as [[r st2] t2].
      cbn in Heq. by injection Heq as -> -> ->.
    + right. exists e. destruct (exec w _ st1) as [[r st2] t2].
      cbn in Heq. by injection Heq as -> -> ->.
Qed.

(** One turn of the loop: what is printed first, the request, what is
    printed then, the sleep; one entry more, for this url; nothing is
    raised. *)
Lemma batch_item_exec (i n : Z) (url : json) (results : list batch_entry)
    (st : run_state) :
  let rq := batch_request client (clock w (reads st)) url in
  ∃ entry line1 line2,
    exec w (batch_item client i n url results) st
    = (inl (results ++ [entry]),
       {| reads := S (reads st); sent := sent st ++ [rq] |},
       [Printed line1; Sent rq; Printed line2; Slept 1]) ∧
    entry_url entry = url.
Proof.
  intros rq. unfold batch_item. cbn [exec]. rewrite exec_bind, exec_try_except.
  destruct (batch_try_exec url results st)
    as [(title & len & line & ->)|(e & ->)]; fold rq.
  - by eexists (Succeeded url title len), _, _.
  - by eexists (Failed url e), _, _.
Qed.

Lemma batch_loop_exec (i n : Z) (urls : list json) (results : list batch_entry)
    (st : run_state) :
  ∃ entries t,
    exec w (batch_loop client i n urls results) st
    = (inl (results ++ entries),
       {| reads := (reads st + length urls)%nat; sent := sent st ++ sends t |}, t) ∧
    entry_url <$> entries = urls ∧
    sends t = imap (λ k url, batch_request client (clock w (reads st + k)%nat) url) urls ∧
    sleeps t = replicate (length urls) 1 ∧
    closings t = 0%nat.
Proof.
  revert i results st. induction urls as [|url urls IH]; intros i results st.
  { exists [], []. cbn. rewrite !app_nil_r, Nat.add_0_r. by destruct st. }
  cbn [batch_loop]. rewrite exec_bind.
  destruct (batch_item_exec i n url results st) as (entry & l1 & l2 & -> & Hurl).
  destruct (IH (i + 1) (results ++ [entry])
              {| reads := S (reads st);
                 sent := sent st ++ [batch_request client (clock w (reads st)) url] |})
    as (entries & t & -> & Hurls & Hsends & Hsleeps & Hclose).
  cbn [reads sent] in *.
  exists (entry :: entries),
    ([Printed l1; Sent (batch_request client (clock w (reads st)) url);
      Printed l2; Slept 1] ++ t).
  split_and!.
  - rewrite sends_app, <- !app_assoc. cbn [length].
    replace (S (reads st) + length urls)%nat with (reads st + S (length urls))%nat
      by lia.
    reflexivity.
  - cbn. by rewrite Hurl, Hurls.
  - rewrite sends_app, Hsends. cbn [imap]. rewrite Nat.add_0_r.
    change (sends [Printed l1; Sent (batch_request client (clock w (reads st)) url);
                   Printed l2; Slept 1])
      with [batch_request client (clock w (reads st)) url].
    cbn [app]. f_equal. apply imap_ext. intros k x _. cbn. do 2 f_equal. lia.
  - rewrite sleeps_app, Hsleeps. reflexivity.
  - rewrite closings_app, Hclose. reflexivity.
Qed.

End Batch.





(** ** cache_management_example *)

Section Steady.

Context (w : world).

Lemma steady_bind {A B : Type} (s : script A) (f : A → script B) (st : run_state)
    (plan1 plan2 : list http_request) (k1 k2 : nat) :
  steady st plan1 k1 (exec w s st) →
  (∀ a st1, reads st1 = (reads st + k1)%nat → sent st1 = sent st ++ plan1 →
            steady st1 plan2 k2 (exec w (f a) st1)) →
  steady st (plan1 ++ plan2) (k1 + k2) (exec w (s ≫= f) st).
Proof.
  intros H1 H2. rewrite exec_bind.
  destruct (exec w s st) as [[[a|e] st1] t1];
    destruct H1 as (Hc1 & Hz1 & Hs1 & Hp1 & Hr1); cbn [fst snd] in *.
  - destruct (Hr1 a eq_refl) as [Hplan1 Hreads1].
    specialize (H2 a st1 Hreads1). rewrite Hs1, Hplan1 in H2.
    specialize (H2 eq_refl).
    destruct (exec w (f a) st1) as [[r2 st2] t2].
    destruct H2 as (Hc2 & Hz2 & Hs2 & Hp2 & Hr2); cbn [fst snd] in *.
    split_and!; cbn [fst snd].
    + by rewrite closings_app, Hc1, Hc2.
    + by rewrite sleeps_app, Hz1, Hz2.
    + by rewrite Hs2, Hs1, sends_app, app_assoc.
    + rewrite sends_app, Hplan1. by apply prefix_app.
    + intros b ->. destruct (Hr2 b eq_refl) as [Hplan2 Hreads2].
      rewrite sends_app, Hplan1, Hplan2, Hreads2, Hreads1. split; [done|lia].
  - split_and!; cbn [fst snd]; [done|done|done| |done].
    by apply prefix_app_r.
Qed.

Lemma steady_print {A : Type} (line : list piece) (s : script A) (st : run_state)
    (plan : list http_request) (k : nat) :
  steady st plan k (exec w s st) → steady st plan k (exec w (Print line s) st).
Proof.
  cbn [exec]. destruct (exec w s st) as [[r st1] t1]. by intros (? & ? & ? & ? & ?).
Qed.

Lemma steady_done {A : Type} (a : A) (st : run_state) :
  steady st [] 0 (exec w (Done a) st).
Proof.
  split_and!; cbn; [done|done|by rewrite app_nil_r|done|].
  intros ? _. split; [done|lia].
Qed.

Lemma steady_fail {A : Type} (e : raised) (st : run_state)
    (plan : list http_request) (k : nat) :
  steady st plan k (exec w (Fail e : script A) st).
Proof.
  split_and!; cbn; [done|done|by rewrite app_nil_r|apply prefix_nil|done].
Qed.

Lemma steady_call (p : prog json) (st : run_state) (rq : http_request) (k : nat) :
  (run w p st).2 = {| reads := (reads st + k)%nat; sent := sent st ++ [rq] |} →
  steady st [rq] k (exec w (call p) st).
Proof.
  intros Hrun. rewrite exec_call, Hrun. cbn [sent]. rewrite drop_app_length.
  split_and!; cbn; [done|done|done|done|]. by intros.
Qed.

Lemma steady_get (v : json) (key : string) (dflt : json) (st : run_state) :
  steady st [] 0 (exec w (call (py_get v key dflt)) st).
Proof.
  rewrite exec_call, run_py_get. cbn [fst snd]. rewrite drop_all.
  split_and!; cbn; [done|done|by rewrite app_nil_r|done|].
  intros ? _. split; [done|lia].
Qed.

Lemma steady_len (v : json) (st : run_state) : steady st [] 0 (exec w (py_len v) st).
Proof. destruct v; (apply steady_done || apply steady_fail). Qed.

Lemma steady_iter (v : json) (st : run_state) : steady st [] 0 (exec w (py_iter v) st).
Proof. destruct v; (apply steady_done || apply steady_fail). Qed.

Lemma steady_show_item (item : json) (st : run_state) :
  steady st [] 0 (exec w (show_item item) st).
Proof.
  unfold show_item.
  apply (steady_bind _ _ st [] [] 0 0); [apply steady_get|]. intros uri st1 _ _.
  apply (steady_bind _ _ st1 [] [] 0 0); [apply steady_get|]. intros name st2 _ _.
  apply steady_print, steady_done.
Qed.

Lemma steady_show_items (items : list json) (st : run_state) :
  steady st [] 0 (exec w (show_items items) st).
Proof.
  revert st. induction items as [|item items IH]; intros st; [apply steady_done|].
  cbn [show_items].
  apply (steady_bind _ _ st [] [] 0 0); [apply steady_show_item|]. intros _ st1 _ _.
  apply IH.
Qed.

Context (client : MCPWebScrapeClient.t).

Let message := String.append (MCPWebScrapeClient.base_url client) "/message".
Let headers := MCPWebScrapeClient.session client.

Lemma steady_show_cache (text : list piece) (st : run_state) :
  steady st [list_request message headers "resources/list"] 0
    (exec w (show_cache client text) st).
Proof.
  unfold show_cache.
  apply (steady_bind _ _ st [_] [] 0 0).
  { apply steady_call. rewrite run_list_cache_state. by rewrite Nat.add_0_r. }
  intros cache st1 _ _.
  apply (steady_bind _ _ st1 [] [] 0 0); [apply steady_len|]. intros n st2 _ _.
  apply steady_print, steady_done.
Qed.

(** A turn of the loop that fills the cache: one request, and nothing
    raised. *)
Lemma populate_item_exec (url : json) (st : run_state) :
  let rq := call_request message headers (clock w (reads st)) "fetch"
              (<["url" := url]> ∅) in
  ∃ line,
    exec w (populate_item client url) st
    = (inl tt, {| reads := S (reads st); sent := sent st ++ [rq] |},
       [Sent rq; Printed line]).
Proof.
  intros rq. unfold populate_item. rewrite exec_try_except, exec_bind, exec_call.
  assert ((run w (call_fetch_content client [url] ∅) st).2
          = {| reads := S (reads st); sent := sent st ++ [rq] |}) as ->.
  { unfold call_fetch_content. change (bind_method _ [url] ∅) with (Some ([url], ∅ : gmap string json)).
    unfold MCPWebScrapeClient.fetch_content.
    change (dict_unpack (<["url" := url]> ∅) ∅) with (<["url" := url]> (∅ : gmap string json)).
    apply run_call_tool_state. }
  cbn [sent]. rewrite drop_app_length.
  destruct (run w _ st).1 as [v|e]; by eexists.
Qed.

Lemma populate_exec (urls : list json) (st : run_state) :
  ∃ t,
    exec w (populate client urls) st
    = (inl tt,
       {| reads := (reads st + length urls)%nat; sent := sent st ++ sends t |}, t) ∧
    sends t = imap (λ k url, call_request message headers (clock w (reads st + k)%nat)
                               "fetch" (<["url" := url]> ∅)) urls ∧
    sleeps t = [] ∧ closings t = 0%nat.
Proof.
  revert st. induction urls as [|url urls IH]; intros st.
  { exists []. cbn. rewrite !app_nil_r, Nat.add_0_r. by destruct st. }
  cbn [populate]. rewrite exec_bind.
  destruct (populate_item_exec url st) as (line & ->).
  destruct (IH {| reads := S (reads st);
                  sent := sent st ++ [call_request message headers
                                        (clock w (reads st)) "fetch"
                                        (<["url" := url]> ∅)] |})
    as (t & -> & Hsends & Hsleeps & Hclose).
  cbn [reads sent] in *.
  exists ([Sent (call_request message headers (clock w (reads st)) "fetch"
                  (<["url" := url]> ∅)); Printed line] ++ t).
  split_and!.
  - rewrite sends_app, <- !app_assoc. cbn [length].
    replace (S (reads st) + length urls)%nat with (reads st + S (length urls))%nat
      by lia.
    reflexivity.
  - rewrite sends_app, Hsends. cbn [imap]. rewrite Nat.add_0_r.
    change (sends [Sent ?rq; Printed line]) with [rq].
    cbn [app]. f_equal. apply imap_ext. intros k x _. cbn. do 2 f_equal. lia.
  - by rewrite sleeps_app, Hsleeps.
  - by rewrite closings_app, Hclose.
Qed.

(** [show_cache] sends the listing request whether or not it raises. *)
Lemma show_cache_exec (text : list piece) (st : run_state) :
  ∃ r t,
    exec w (show_cache client text) st
    = (r, {| reads := reads st;
             sent := sent st ++ [list_request message headers "resources/list"] |}, t) ∧
    sends t = [list_request message headers "resources/list"] ∧
    sleeps t = [] ∧ closings t = 0%nat.
Proof.
  unfold show_cache. rewrite exec_bind, exec_call, run_list_cache_state.
  cbn [sent]. rewrite drop_app_length.
  destruct (run w (MCPWebScrapeClient.list_cache client) st).1 as [cache|e];
    [|by eexists _, _].
  rewrite exec_bind. destruct cache; cbn [py_len exec]; by eexists _, _.
Qed.

(** What follows the second listing. *)
Lemma steady_purge (cache : json) (st : run_state) :
  steady st
    [call_request message headers (clock w (reads st)) "purge"
       (<["pattern" := JStr "example.com"]> ∅);
     list_request message headers "resources/list"] 1
    (exec w
       (items ← py_iter cache;
        _ ← show_items items;
        Print [PLit newline; PLit "Purging example.com from cache..."]
          (purge_result ←
             call (MCPWebScrapeClient.purge_cache client (JStr "example.com"));
           Print [PLit "Purge result: "; PVal purge_result]
             (_ ← show_cache client [PLit "Cache after purge: "];
              Done tt))) st).
Proof.
  apply (steady_bind _ _ st [] [_; _] 0 1); [apply steady_iter|].
  intros items st1 Hreads1 _. rewrite Nat.add_0_r in Hreads1. rewrite <- Hreads1.
  apply (steady_bind _ _ st1 [] [_; _] 0 1); [apply steady_show_items|].
  intros _ st2 Hreads2 _. rewrite Nat.add_0_r in Hreads2. rewrite <- Hreads2.
  apply steady_print.
  apply (steady_bind _ _ st2 [_] [_] 1 0).
  { apply steady_call. unfold MCPWebScrapeClient.purge_cache.
    change (py_truthy (JStr "example.com")) with true. cbv iota.
    rewrite run_call_tool_state. by rewrite Nat.add_1_r. }
  intros purge_result st3 _ _. apply steady_print.
  apply (steady_bind _ _ st3 [_] [] 0 0); [apply steady_show_cache|].
  intros _ st4 _ _. apply steady_done.
Qed.

Lemma cache_management_exec (test_urls : list json) (st : run_state) :
  let listing := list_request message headers "resources/list" in
  let fetches :=
    imap (λ k url, call_request message headers (clock w (reads st + k)%nat) "fetch"
                     (<["url" := url]> ∅)) test_urls in
  let purge :=
    call_request message headers (clock w (reads st + length test_urls)%nat) "purge"
      (<["pattern" := JStr "example.com"]> ∅) in
  ∃ r st' t,
    exec w (cache_management client test_urls) st = (r, st', t ++ [Closed]) ∧
    closings t = 0%nat ∧ sleeps t = [] ∧
    sent st' = sent st ++ sends t ∧
    ((sends t = [listing] ∧ r ≠ inl tt) ∨
     ∃ rest, sends t = listing :: fetches ++ listing :: rest ∧
             rest `prefix_of` [purge; listing] ∧
             (r = inl tt → rest = [purge; listing])).
Proof.
  intros listing fetches purge. subst listing fetches purge.
  unfold cache_management. rewrite exec_try_finally, exec_bind.
  destruct (show_cache_exec [PLit "Initial cache: "] st)
    as (r1 & t1 & -> & Hsends1 & Hsleeps1 & Hclose1).
  destruct r1 as [cache1|e1].
  2:{ exists (inr e1), {| reads := reads st; sent := sent st ++ [list_request message headers "resources/list"] |}, t1.
      split_and!; [done|done|done|by rewrite Hsends1|]. left. by rewrite Hsends1. }
  cbn [exec]. rewrite exec_bind.
  destruct (populate_exec test_urls
              {| reads := reads st; sent := sent st ++ [list_request message headers "resources/list"] |})
    as (t2 & -> & Hsends2 & Hsleeps2 & Hclose2).
  cbn [reads sent] in *. rewrite exec_bind.
  destruct (show_cache_exec
              [PLit newline; PLit "Cache after population: "]
              {| reads := (reads st + length test_urls)%nat;
                 sent := (sent st ++ [list_request message headers "resources/list"]) ++ sends t2 |})
    as (r3 & t3 & -> & Hsends3 & Hsleeps3 & Hclose3).
  cbn [reads sent] in *.
  destruct r3 as [cache3|e3].
  2:{ eexists (inr e3), _, (t1 ++ Printed _ :: t2 ++ t3).
      split_and!.
      - cbn [exec]. by rewrite <- ?app_assoc.
      - rewrite closings_app. change (closings (Printed ?l :: ?t)) with (closings t).
        by rewrite closings_app, Hclose1, Hclose2, Hclose3.
      - rewrite sleeps_app. change (sleeps (Printed ?l :: ?t)) with (sleeps t).
        by rewrite sleeps_app, Hsleeps1, Hsleeps2, Hsleeps3.
      - rewrite sends_app. change (sends (Printed ?l :: ?t)) with (sends t).
        rewrite sends_app, Hsends1, Hsends3. cbn [sent]. by rewrite <- ?app_assoc.
      - right. exists []. rewrite sends_app.
        change (sends (Printed ?l :: ?t)) with (sends t).
        rewrite sends_app, Hsends1, Hsends2, Hsends3.
        split_and!; [done|apply prefix_nil|done]. }
  pose proof (steady_purge cache3
                {| reads := (reads st + length test_urls)%nat;
                   sent := ((sent st ++ [list_request message headers "resources/list"]) ++ sends t2) ++ [list_request message headers "resources/list"] |})
    as Htail.
  destruct (exec w _ {| reads := (reads st + length test_urls)%nat;
                        sent := ((sent st ++ [list_request message headers "resources/list"]) ++ sends t2) ++ [list_request message headers "resources/list"] |})
    as [[r4 st4] t4].
  destruct Htail as (Hclose4 & Hsleeps4 & Hsent4 & Hprefix4 & Hall4).
  cbn [fst snd reads sent] in *.
  exists r4, st4, (t1 ++ Printed [PLit newline; PLit "Populating cache..."]
                      :: t2 ++ t3 ++ t4).
  split_and!.
  - cbn [exec]. by rewrite <- ?app_assoc.
  - rewrite closings_app. change (closings (Printed ?l :: ?t)) with (closings t).
    by rewrite !closings_app, Hclose1, Hclose2, Hclose3, Hclose4.
  - rewrite sleeps_app. change (sleeps (Printed ?l :: ?t)) with (sleeps t).
    by rewrite !sleeps_app, Hsleeps1, Hsleeps2, Hsleeps3, Hsleeps4.
  - rewrite sends_app. change (sends (Printed ?l :: ?t)) with (sends t).
    rewrite !sends_app, Hsends1, Hsends3, Hsent4. by rewrite <- ?app_assoc.
  - right. exists (sends t4). rewrite sends_app.
    change (sends (Printed ?l :: ?t)) with (sends t).
    rewrite !sends_app, Hsends1, Hsends2, Hsends3.
    split_and!; [done|done|]. intros ->. by destruct (Hall4 tt eq_refl).
Qed.

End Steady.


